(** * Review widget, SSR props builder and article sitemap

    A shallow embedding of

    - [EditUserResourceReview] and [EditUserResourceReviewV2]
      (the rating / review-comment widgets),
    - [createServerSideProps] (src/server/utils/server-side-helpers.ts),
    - [getServerSideProps] of src/pages/sitemap-articles.xml/index.tsx,

    followed by the properties the specification states about them.

    JavaScript values are modelled as follows: a [number] that is only ever
    compared or tested for truthiness is a [Z]; a [string] is a [string];
    [undefined] / [null] are [None]; an object used as a bag of properties is
    a [gmap string _]; a call to an external collaborator that has an effect
    is recorded in a log. *)

From Stdlib Require Import ZArith String List Bool Lia Sorted.
From stdpp Require Import base option gmap strings.
Import ListNotations.

Local Open Scope string_scope.

(** ** JavaScript truthiness of the values the code tests *)

Module JS.

(** [!!n] for an integral number: only [0] is falsy. *)
Definition truthy_number (n : Z) : bool := negb (n =? 0)%Z.

(** [!!s] for a string: only the empty string is falsy. *)
Definition truthy_string (s : string) : bool := negb (String.eqb s "").

(** [!!x] for an optional value ([undefined] is falsy). *)
Definition truthy_opt {A} (truthy : A -> bool) (x : option A) : bool :=
  match x with
  | Some a => truthy a
  | None => false
  end.

(** [x ?? d] *)
Definition nullish {A} (x : option A) (d : A) : A :=
  match x with
  | Some a => a
  | None => d
  end.

End JS.

(** ** Data shared by both review widgets *)

(** The fields of [ResourceReviewModel] the widgets read.  [details] is
    nullable in the selector; [None] is JavaScript's [null]. *)
Record ResourceReviewModel := {
  rr_id : Z;
  rr_rating : Z;
  rr_details : option string;
}.

(** Payload of [createMutation.mutate]. *)
Record CreateInput := {
  c_modelVersionId : Z;
  c_modelId : Z;
  c_rating : Z;
  c_recommended : bool;
}.

(** Payload of [updateMutation.mutate]; a field bound to [undefined] is
    [None]. *)
Record UpdateInput := {
  u_id : Z;
  u_rating : option Z;
  u_details : option string;
}.

(** The calls handed to the mutation client, oldest first. *)
Inductive MutationCall :=
| CreateCall (payload : CreateInput)
| UpdateCall (payload : UpdateInput).

(** [resourceReview?.id] *)
Definition optional_id (rr : option ResourceReviewModel) : option Z :=
  rr_id <$> rr.

(** [resourceReview?.details]: [None] is [undefined] (no entity),
    [Some None] is [null]. *)
Definition optional_details (rr : option ResourceReviewModel)
  : option (option string) :=
  rr_details <$> rr.

(** [resourceReview?.details ?? ''] *)
Definition details_or_empty (rr : option ResourceReviewModel) : string :=
  JS.nullish (JS.nullish (optional_details rr) None) "".

(** ** The form controller *)

Module Form.

(** Modelled from the spec: the form controller ([useForm] of [~/libs/form])
    is not among the sources.  The specification describes it as holding the
    current field values ([details : string]) and a dirty flag that is
    "true iff current values differ from last-reset baseline", with a
    [reset(values)] operation and a [handleSubmit(handler)] wrapper that
    "validates then invokes [handler] with parsed values".  The schema
    accepts every string, so validation never rejects. *)
Record FormState := {
  values : string;
  baseline : string;
}.

(** Modelled from the spec: [useForm({ schema, defaultValues: { details } })]
    starts with the default as value and as baseline. *)
Definition useForm (details : string) : FormState :=
  {| values := details; baseline := details |}.

(** Modelled from the spec: [form.reset({ details })] makes [details] the
    value and the new baseline. *)
Definition reset (details : string) (f : FormState) : FormState :=
  {| values := details; baseline := details |}.

(** Modelled from the spec: the user typing into the field changes the value
    and leaves the baseline. *)
Definition setValue (details : string) (f : FormState) : FormState :=
  {| values := details; baseline := baseline f |}.

(** Modelled from the spec: [form.formState.isDirty], true iff the current
    value differs from the last-reset baseline. *)
Definition isDirty (f : FormState) : bool :=
  negb (String.eqb (values f) (baseline f)).

(** Modelled from the spec: [form.handleSubmit(handler)()] validates, then
    invokes the handler with the parsed current values. *)
Definition handleSubmit {S} (handler : string -> S -> S) (f : FormState)
  : S -> S :=
  handler (values f).

End Form.

(** ** [EditUserResourceReview] *)

Module EditUserResourceReview.

Record Props := {
  resourceReview : option ResourceReviewModel;
  modelId : Z;
  modelVersionId : Z;
  openedCommentBox : bool;
}.

(** The state owned by one mounted widget, together with what it has asked
    of its collaborators: the mutation calls issued and the focus timers
    scheduled with [setTimeout]. *)
Record State := {
  editDetail : bool;
  form : Form.FormState;
  calls : list MutationCall;
  focusTimers : nat;
}.

Definition set_editDetail (b : bool) (st : State) : State :=
  {| editDetail := b; form := form st; calls := calls st;
     focusTimers := focusTimers st |}.

Definition set_form (f : Form.FormState) (st : State) : State :=
  {| editDetail := editDetail st; form := f; calls := calls st;
     focusTimers := focusTimers st |}.

Definition mutate (c : MutationCall) (st : State) : State :=
  {| editDetail := editDetail st; form := form st;
     calls := calls st ++ [c]; focusTimers := focusTimers st |}.

Definition setTimeout_focus (st : State) : State :=
  {| editDetail := editDetail st; form := form st; calls := calls st;
     focusTimers := S (focusTimers st) |}.

(** State after mounting: [useState(openedCommentBox)] and [useForm].  The
    effect that runs on mount resets the form to the value it already has. *)
Definition mount (p : Props) : State :=
  {| editDetail := openedCommentBox p;
     form := Form.useForm (details_or_empty (resourceReview p));
     calls := [];
     focusTimers := 0 |}.

(** [toggleEditDetail].  The state update is functional
    ([setEditDetail((state) => !state)]) and so reads the current state;
    the test [if (!editDetail)] reads the value the closure was created
    with, [rendered]. *)
Definition toggleEditDetail (rendered : bool) (st : State) : State :=
  let st := set_editDetail (negb (editDetail st)) st in
  if negb rendered then setTimeout_focus st else st.

(** A click on the link or on Cancel: the closure is the one of the current
    render. *)
Definition onClick_toggle (st : State) : State :=
  toggleEditDetail (editDetail st) st.

Definition createReviewWithRating (p : Props) (rating : Z) (st : State)
  : State :=
  mutate (CreateCall {| c_modelVersionId := modelVersionId p;
                        c_modelId := modelId p;
                        c_rating := rating;
                        c_recommended := (3 <=? rating)%Z |}) st.

Definition updateReview (p : Props) (rating : option Z)
    (details : option string) (st : State) : State :=
  match resourceReview p with
  | None => st
  | Some rr =>
      mutate (UpdateCall {| u_id := rr_id rr; u_rating := rating;
                            u_details := details |}) st
  end.

(** The [onSuccess] callback given to [updateMutation.mutate]; [rendered] is
    the value of [editDetail] in the render that created the callback. *)
Definition updateReview_onSuccess (rendered : bool) (request : UpdateInput)
    (st : State) : State :=
  if JS.truthy_opt JS.truthy_string (u_details request) then
    let st := toggleEditDetail rendered st in
    set_form (Form.reset (JS.nullish (u_details request) "") (form st)) st
  else st.

Definition handleSubmit (p : Props) (details : string) (st : State)
  : State :=
  updateReview p None (Some details) st.

Definition handleRatingChange (p : Props) (rating : Z) (st : State)
  : State :=
  if negb (JS.truthy_opt JS.truthy_number (optional_id (resourceReview p)))
  then createReviewWithRating p rating st
  else updateReview p (Some rating) None st.

(** The body of the [useEffect] keyed on [resourceReview?.details]. *)
Definition resync (p : Props) (st : State) : State :=
  set_form (Form.reset (details_or_empty (resourceReview p)) (form st)) st.

(** A re-render with new props: the effect runs when its dependency
    changed. *)
Definition rerender (old new : Props) (st : State) : State :=
  if decide (optional_details (resourceReview old)
             = optional_details (resourceReview new))
  then st
  else resync new st.

(** [<Form form={form} onSubmit={handleSubmit}>] being submitted. *)
Definition Form_onSubmit (p : Props) (st : State) : State :=
  Form.handleSubmit (handleSubmit p) (form st) st.

(** [save] of the imperative handle. *)
Definition save (p : Props) (st : State) : State :=
  if Form.isDirty (form st)
  then Form.handleSubmit (handleSubmit p) (form st) st
  else st.

(** The user editing the comment. *)
Definition type_details (d : string) (st : State) : State :=
  set_form (Form.setValue d (form st)) st.

End EditUserResourceReview.

(** ** [EditUserResourceReviewV2] *)

Module EditUserResourceReviewV2.

Record Props := {
  userReview : option ResourceReviewModel;
  modelVersionId : Z;
}.

Record State := {
  opened : bool;
  form : Form.FormState;
  calls : list MutationCall;
}.

Definition set_opened (b : bool) (st : State) : State :=
  {| opened := b; form := form st; calls := calls st |}.

Definition set_form (f : Form.FormState) (st : State) : State :=
  {| opened := opened st; form := f; calls := calls st |}.

Definition mutate (c : MutationCall) (st : State) : State :=
  {| opened := opened st; form := form st; calls := calls st ++ [c] |}.

(** State after mounting: [useState(false)] and [useForm]. *)
Definition mount (p : Props) : State :=
  {| opened := false;
     form := Form.useForm (details_or_empty (userReview p));
     calls := [] |}.

(** [handleToggleOpen]: [setOpened((v) => !v)]. *)
Definition handleToggleOpen (st : State) : State :=
  set_opened (negb (opened st)) st.

Definition updateReview (p : Props) (rating : option Z)
    (details : option string) (st : State) : State :=
  match userReview p with
  | None => st
  | Some rr =>
      mutate (UpdateCall {| u_id := rr_id rr; u_rating := rating;
                            u_details := details |}) st
  end.

(** The [onSuccess] callback given to [updateMutation.mutate]. *)
Definition updateReview_onSuccess (payload : UpdateInput) (st : State)
  : State :=
  if JS.truthy_opt JS.truthy_string (u_details payload) then
    let st := handleToggleOpen st in
    set_form (Form.reset (JS.nullish (u_details payload) "") (form st)) st
  else st.

Definition handleSubmit (p : Props) (details : string) (st : State)
  : State :=
  updateReview p None (Some details) st.

Definition handleCancel (p : Props) (st : State) : State :=
  handleToggleOpen
    (set_form (Form.reset (details_or_empty (userReview p)) (form st)) st).

(** The body of the [useEffect] keyed on [userReview?.details]. *)
Definition resync (p : Props) (st : State) : State :=
  set_form (Form.reset (details_or_empty (userReview p)) (form st)) st.

(** A re-render with new props: the effect runs when its dependency
    changed. *)
Definition rerender (old new : Props) (st : State) : State :=
  if decide (optional_details (userReview old)
             = optional_details (userReview new))
  then st
  else resync new st.

(** [<Form form={form} onSubmit={handleSubmit}>] being submitted. *)
Definition Form_onSubmit (p : Props) (st : State) : State :=
  Form.handleSubmit (handleSubmit p) (form st) st.

(** [save] of the imperative handle. *)
Definition save (p : Props) (st : State) : State :=
  if Form.isDirty (form st)
  then Form.handleSubmit (handleSubmit p) (form st) st
  else st.

(** The user editing the comment. *)
Definition type_details (d : string) (st : State) : State :=
  set_form (Form.setValue d (form st)) st.

End EditUserResourceReviewV2.

Module V1 := EditUserResourceReview.
Module V2 := EditUserResourceReviewV2.

(** ** [createServerSideProps] *)

Module ServerSideHelpers.

(** The collaborators of the builder: the types it passes around without
    looking inside, and the outcome of each external call.  A call that
    throws or rejects yields [inl e]. *)
Class Collaborators := {
  Session : Type;
  User : Type;
  Features : Type;
  Helpers : Type;
  DehydratedState : Type;
  Redirect : Type;
  Value : Type;
  IncomingMessage : Type;
  Failure : Type;
  (** [session.user] *)
  session_user : Session -> User;
  getServerAuthSession_ext : IncomingMessage -> Failure + option Session;
  getFeatureFlagsLazy_ext : option User -> IncomingMessage -> Failure + Features;
  (** [createServerSideHelpers({ router, ctx: { user, features, ... } })] *)
  createServerSideHelpers_ext : option User -> Features -> Failure + Helpers;
  (** [ssg.dehydrate()] *)
  dehydrate : Helpers -> DehydratedState;
}.

Section Builder.

Context `{Collaborators}.

(** [GetServerSidePropsContext]: [req.url], the [session] property
    middleware may have attached to [req] ([None] when it is [undefined]
    or [null]), and the rest of the request. *)
Record GetServerSidePropsContext := {
  req_url : option string;
  req_session : option Session;
  req_rest : IncomingMessage;
}.

Inductive Prefetch := always | once.

(** The options as the caller wrote them; [None] is an omitted option. *)
Record CreateServerSidePropsProps := {
  useSSG : option bool;
  useSession : option bool;
  prefetch : option Prefetch;
}.

(** [props: P | Promise<P>] *)
Inductive PropsBody :=
| PlainProps (p : gmap string Value)
| PromiseProps (p : gmap string Value).

(** [GetPropsFnResult<P>], the type the resolver's result is read at.
    A missing property is [None] (or [false] for [notFound], whose only
    value is [true]); a [Redirect] is an object, hence truthy. *)
Record GetPropsFnResult := {
  props : option PropsBody;
  redirect : option Redirect;
  notFound : bool;
}.

(** [CustomGetServerSidePropsContext] *)
Record CustomGetServerSidePropsContext := {
  ctx : GetServerSidePropsContext;
  isClient : bool;
  ssg : option Helpers;
  session : option Session;
  features : Features;
}.

Definition Resolver : Type :=
  CustomGetServerSidePropsContext -> Failure + option GetPropsFnResult.

(** The values found in the final props object. *)
Inductive PropValue :=
| SessionValue (s : option Session)
| TrpcStateValue (d : DehydratedState)
| CallerValue (v : Value).

(** What the generated handler returns. *)
Inductive Output :=
| OutRedirect (r : Redirect)
| OutNotFound
| OutProps (p : gmap string PropValue).

(** The external calls made while handling one request, oldest first. *)
Inductive Event :=
| EvGetServerAuthSession
| EvGetFeatureFlagsLazy (user : option User)
| EvCreateServerSideHelpers (user : option User)
| EvResolver (args : CustomGetServerSidePropsContext).

(** Computations that log external calls and may fail. *)
Definition M (A : Type) : Type := list Event * (Failure + A).

Definition ret {A} (a : A) : M A := ([], inr a).

Definition bind {A B} (m : M A) (k : A -> M B) : M B :=
  match m with
  | (t, inl e) => (t, inl e)
  | (t, inr a) => let '(t', r) := k a in ((t ++ t')%list, r)
  end.

(** An external call: log it, then return or fail as it does. *)
Definition call {A} (ev : Event) (r : Failure + A) : M A := ([ev], r).

Definition trace {A} (m : M A) : list Event := fst m.
Definition outcome {A} (m : M A) : Failure + A := snd m.

Definition is_helpers_event (ev : Event) : bool :=
  match ev with
  | EvCreateServerSideHelpers _ => true
  | _ => false
  end.

(** How many prefetch contexts were constructed. *)
Definition helpers_built (t : list Event) : nat :=
  length (List.filter is_helpers_event t).

Notation "'await' x := m 'in' k" := (bind m (fun x => k))
  (at level 10, x name, m at level 100, k at level 200).

(** [session?.user] *)
Definition optional_user (s : option Session) : option User :=
  session_user <$> s.

Definition getServerAuthSession (context : GetServerSidePropsContext)
  : M (option Session) :=
  call EvGetServerAuthSession (getServerAuthSession_ext (req_rest context)).

Definition getFeatureFlagsLazy (user : option User)
    (context : GetServerSidePropsContext) : M Features :=
  call (EvGetFeatureFlagsLazy user)
       (getFeatureFlagsLazy_ext user (req_rest context)).

Definition getServerProxySSGHelpers (context : GetServerSidePropsContext)
    (s : option Session) (f : Features) : M Helpers :=
  call (EvCreateServerSideHelpers (optional_user s))
       (createServerSideHelpers_ext (optional_user s) f).

(** [context.req.url?.startsWith('/_next/data') ?? false] *)
Definition is_client (context : GetServerSidePropsContext) : bool :=
  JS.nullish (String.prefix "/_next/data" <$> req_url context) false.

(** [(context.req as any)['session'] ??
     (useSession ? await getServerAuthSession(context) : null)] *)
Definition resolve_session (o : CreateServerSidePropsProps)
    (context : GetServerSidePropsContext) : M (option Session) :=
  match req_session context with
  | Some s => ret (Some s)
  | None =>
      if JS.nullish (useSession o) false
      then getServerAuthSession context
      else ret None
  end.

Definition is_always (p : Prefetch) : bool :=
  match p with always => true | once => false end.

(** [useSSG && (prefetch === 'always' || !isClient)] *)
Definition wants_ssg (o : CreateServerSidePropsProps) (client : bool)
  : bool :=
  JS.truthy_opt (fun b : bool => b) (useSSG o)
  && (is_always (JS.nullish (prefetch o) once) || negb client).

Definition build_ssg (o : CreateServerSidePropsProps)
    (context : GetServerSidePropsContext) (client : bool)
    (s : option Session) (f : Features) : M (option Helpers) :=
  if wants_ssg o client
  then (await h := getServerProxySSGHelpers context s f in ret (Some h))
  else ret None.

(** [...(props ?? {})]: a promise has no own enumerable property. *)
Definition spread_props (p : option PropsBody) : gmap string PropValue :=
  match p with
  | Some (PlainProps m) => CallerValue <$> m
  | Some (PromiseProps _) => ∅
  | None => ∅
  end.

(** [...(ssg ? { trpcState: ssg.dehydrate() } : {})] *)
Definition spread_trpcState (h : option Helpers) : gmap string PropValue :=
  match h with
  | Some g => {[ "trpcState" := TrpcStateValue (dehydrate g) ]}
  | None => ∅
  end.

(** [{ session, ...a, ...b }]: a later property overrides an earlier one
    (the union of maps is left-biased). *)
Definition final_props (s : option Session) (p : option PropsBody)
    (h : option Helpers) : gmap string PropValue :=
  spread_trpcState h ∪ (spread_props p ∪ {[ "session" := SessionValue s ]}).

(** Lines 59-74: what the handler makes of the resolver's result. *)
Definition interpret (s : option Session) (h : option Helpers)
    (result : option GetPropsFnResult) : Output :=
  match result with
  | Some r =>
      match redirect r with
      | Some rd => OutRedirect rd
      | None =>
          if notFound r then OutNotFound
          else OutProps (final_props s (props r) h)
      end
  | None => OutProps (final_props s None h)
  end.

(** The handler [createServerSideProps] returns. *)
Definition createServerSideProps (o : CreateServerSidePropsProps)
    (resolver : Resolver) (context : GetServerSidePropsContext)
  : M Output :=
  let client := is_client context in
  await s := resolve_session o context in
  await f := getFeatureFlagsLazy (optional_user s) context in
  await h := build_ssg o context client s f in
  let args := {| ctx := context; isClient := client; ssg := h;
                 session := s; features := f |} in
  await result := call (EvResolver args) (resolver args) in
  ret (interpret s h result).

End Builder.

Arguments GetServerSidePropsContext {_}.
Arguments PropsBody {_}.
Arguments GetPropsFnResult {_}.
Arguments CustomGetServerSidePropsContext {_}.
Arguments Resolver {_}.
Arguments PropValue {_}.
Arguments Output {_}.
Arguments Event {_}.

End ServerSideHelpers.

(** ** The article sitemap *)

Module SitemapArticles.

(** The members of the enumerations the query names. *)
Inductive BrowsingMode := SFW.
Inductive MetricTimeframe := AllTime.
Inductive ArticleSort := MostBookmarks.
Inductive PeriodMode := published.

Record GetArticlesInput := {
  browsingMode : BrowsingMode;
  limit : Z;
  period : MetricTimeframe;
  sort : ArticleSort;
  periodMode : PeriodMode;
}.

Record ISitemapField := {
  loc : string;
  lastmod : string;
}.

Section Handler.

(** The request context, dates, failures and the result of the sitemap
    writer are opaque to the handler. *)
Context {Ctx DateT Failure Result : Type}.

Record Article := {
  id : Z;
  title : string;
  publishedAt : option DateT;
}.

(** What [getArticles] resolves to. *)
Record ArticlesPage := { items : list Article }.

(** The collaborators; [now] is [new Date()] and [number_to_string] is how a
    template literal prints a number. *)
Context (getArticles : GetArticlesInput -> Failure + ArticlesPage)
        (getBaseUrl : unit -> string)
        (slugit : string -> string)
        (toISOString : DateT -> string)
        (now : DateT)
        (number_to_string : Z -> string)
        (getServerSideSitemapLegacy :
           Ctx -> list ISitemapField -> Failure + Result).

(** [promise.catch(handler)] *)
Definition catch {A} (r : Failure + A) (handler : Failure -> A) : A :=
  match r with
  | inl e => handler e
  | inr a => a
  end.

Definition article_field (article : Article) : ISitemapField :=
  {| loc := getBaseUrl tt +:+ "/articles/" +:+ number_to_string (id article)
            +:+ "/" +:+ slugit (title article);
     lastmod := JS.nullish (toISOString <$> publishedAt article)
                           (toISOString now) |}.

Definition getServerSideProps (context : Ctx) : Failure + Result :=
  let data :=
    catch (getArticles {| browsingMode := SFW; limit := 1000;
                          period := AllTime; sort := MostBookmarks;
                          periodMode := published |})
          (fun _ => {| items := [] |}) in
  let fields := map article_field (items data) in
  getServerSideSitemapLegacy context fields.

End Handler.

Arguments Article : clear implicits.
Arguments ArticlesPage : clear implicits.

End SitemapArticles.

(** ** Sample inputs

    Concrete props, entities and states on which the properties below are
    exercised. *)

Module Samples.

(** A viewer who has not reviewed the resource. *)
Definition no_review : V1.Props :=
  {| V1.resourceReview := None; V1.modelId := 11; V1.modelVersionId := 22;
     V1.openedCommentBox := false |}.

(** A review with a rating and a comment. *)
Definition nice_review : ResourceReviewModel :=
  {| rr_id := 7; rr_rating := 4; rr_details := Some "nice" |}.

(** A review with a rating only. *)
Definition bare_review : ResourceReviewModel :=
  {| rr_id := 7; rr_rating := 4; rr_details := None |}.

(** An entity whose id is the number zero. *)
Definition zero_id_review : ResourceReviewModel :=
  {| rr_id := 0; rr_rating := 2; rr_details := None |}.

Definition props_of (rr : ResourceReviewModel) : V1.Props :=
  {| V1.resourceReview := Some rr; V1.modelId := 11;
     V1.modelVersionId := 22; V1.openedCommentBox := false |}.

Definition propsV2_of (rr : ResourceReviewModel) : V2.Props :=
  {| V2.userReview := Some rr; V2.modelVersionId := 22 |}.

(** The viewer opens the editor, clears the comment and presses Save. *)
Definition cleared_and_submitted : V1.State :=
  V1.Form_onSubmit (props_of nice_review)
    (V1.type_details "" (V1.onClick_toggle (V1.mount (props_of nice_review)))).

(** The viewer opens the editor, types, presses Cancel, and the host page
    then calls [save]. *)
Definition cancelled_then_saved : V1.State :=
  V1.save (props_of nice_review)
    (V1.onClick_toggle
       (V1.type_details "great"
          (V1.onClick_toggle (V1.mount (props_of nice_review))))).

(** The same in the second variant: open, type, close with the toggle,
    [save]. *)
Definition closed_then_saved : V2.State :=
  V2.save (propsV2_of nice_review)
    (V2.handleToggleOpen
       (V2.type_details "great"
          (V2.handleToggleOpen (V2.mount (propsV2_of nice_review))))).

(** The viewer opens the editor and types without saving. *)
Definition typing : V1.State :=
  V1.type_details "great"
    (V1.onClick_toggle (V1.mount (props_of nice_review))).

Definition typingV2 : V2.State :=
  V2.type_details "great"
    (V2.handleToggleOpen (V2.mount (propsV2_of nice_review))).

(** The entity after a fresh fetch brought another comment. *)
Definition fresh_review : ResourceReviewModel :=
  {| rr_id := 7; rr_rating := 4; rr_details := Some "fresh" |}.

(** Collaborators that always succeed. *)
#[local] Instance collaborators : ServerSideHelpers.Collaborators := {|
  ServerSideHelpers.Session := string;
  ServerSideHelpers.User := string;
  ServerSideHelpers.Features := unit;
  ServerSideHelpers.Helpers := nat;
  ServerSideHelpers.DehydratedState := string;
  ServerSideHelpers.Redirect := string;
  ServerSideHelpers.Value := Z;
  ServerSideHelpers.IncomingMessage := unit;
  ServerSideHelpers.Failure := string;
  ServerSideHelpers.session_user := fun s => s;
  ServerSideHelpers.getServerAuthSession_ext := fun _ => inr (Some "alice");
  ServerSideHelpers.getFeatureFlagsLazy_ext := fun _ _ => inr tt;
  ServerSideHelpers.createServerSideHelpers_ext := fun _ _ => inr 1;
  ServerSideHelpers.dehydrate := fun _ => "snapshot";
|}.

Import ServerSideHelpers.

(** A full page load and a soft navigation, neither with a session attached
    by middleware. *)
Definition page_load : GetServerSidePropsContext :=
  {| req_url := Some "/models/1"; req_session := None; req_rest := tt |}.

Definition soft_navigation : GetServerSidePropsContext :=
  {| req_url := Some "/_next/data/build/models/1.json";
     req_session := None; req_rest := tt |}.

Definition ssg_once : CreateServerSidePropsProps :=
  {| useSSG := Some true; useSession := Some true; prefetch := Some once |}.

Definition ssg_always : CreateServerSidePropsProps :=
  {| useSSG := Some true; useSession := Some true;
     prefetch := Some always |}.

(** [prefetch: 'always'] without [useSSG]. *)
Definition always_without_ssg : CreateServerSidePropsProps :=
  {| useSSG := None; useSession := None; prefetch := Some always |}.

Definition void_resolver : Resolver := fun _ => inr None.

Definition redirect_resolver : Resolver :=
  fun _ => inr (Some {| props := None; redirect := Some "/login";
                        notFound := false |}).

Definition notFound_resolver : Resolver :=
  fun _ => inr (Some {| props := None; redirect := None;
                        notFound := true |}).

(** A resolver whose props carry a [session] property of their own. *)
Definition session_prop_resolver : Resolver :=
  fun _ => inr (Some {| props := Some (PlainProps {[ "session" := 99%Z ]});
                        redirect := None; notFound := false |}).

Definition foo_resolver : Resolver :=
  fun _ => inr (Some {| props := Some (PlainProps {[ "foo" := 1%Z ]});
                        redirect := None; notFound := false |}).

(** The arguments the handler built from [ssg_once] hands to the resolver
    on a full page load. *)
Definition page_load_args : CustomGetServerSidePropsContext :=
  {| ctx := page_load; isClient := false; ssg := Some 1;
     session := Some "alice"; features := tt |}.

End Samples.

(** ** What the widgets render

    The rendering decisions of both widgets that depend on the entity and on
    the widget state; styling and layout are left out. *)

Module ReviewView.

(** The wording of the link: ['Add'] or ['Edit'] Review Comments. *)
Inductive Label := Add | Edit.

(** The Save button: [variant='outline'], [disabled], [loading]. *)
Record SaveButton := {
  outline : bool;
  disabled : bool;
  loading : bool;
}.


(** [!resourceReview.details ? 'Add' : 'Edit'] *)
Definition link_label (rr : ResourceReviewModel) : Label :=
  if negb (JS.truthy_opt JS.truthy_string (rr_details rr)) then Add else Edit.


(** [const hasComment = !!userReview?.details] *)
Definition hasComment (p : V2.Props) : bool :=
  JS.truthy_opt JS.truthy_string
    (JS.nullish (optional_details (V2.userReview p)) None).

(** What [EditUserResourceReviewV2] returns when it renders. *)
Record ViewV2 := {
  chevron_opened : bool;
  label : Label;
  reviewedAt : bool;
  save_button : option SaveButton;
}.

(** The render of [EditUserResourceReviewV2]: [null] without a review;
    [isLoading] is [updateMutation.isLoading], [loadingUserReview] the
    loading flag of the review query. *)
Definition renderV2 (p : V2.Props) (showReviewedAt : bool) (st : V2.State)
    (isLoading loadingUserReview : bool) : option ViewV2 :=
  match V2.userReview p with
  | None => None
  | Some rr =>
      Some {| chevron_opened := V2.opened st;
              label := if hasComment p then Edit else Add;
              reviewedAt := showReviewedAt;
              save_button :=
                if V2.opened st
                then Some {| outline := false;
                             disabled := negb (Form.isDirty (V2.form st));
                             loading := isLoading || loadingUserReview |}
                else None |}
  end.

End ReviewView.

(** ** Reading the builder's log *)

Module BuilderLog.

Section Log.

Import ServerSideHelpers.
Context `{Collaborators}.

(** The place of each external call in the handler's text. *)
Definition rank (ev : Event) : nat :=
  match ev with
  | EvGetServerAuthSession => 0
  | EvGetFeatureFlagsLazy _ => 1
  | EvCreateServerSideHelpers _ => 2
  | EvResolver _ => 3
  end.

Definition is_session_event (ev : Event) : bool :=
  match ev with
  | EvGetServerAuthSession => true
  | _ => false
  end.

(** How many times the session resolver was called. *)
Definition session_lookups (t : list Event) : nat :=
  length (List.filter is_session_event t).

Definition is_resolver_event (ev : Event) : bool :=
  match ev with
  | EvResolver _ => true
  | _ => false
  end.

(** How many times the page's resolver was invoked. *)
Definition resolver_calls (t : list Event) : nat :=
  length (List.filter is_resolver_event t).

End Log.

End BuilderLog.

(** ** More sample inputs *)

Module MoreSamples.

(** Collaborators whose outcomes are chosen by the caller. *)
Definition collaborators_with (auth : string + option string)
    (flags : string + unit) (helpers : string + nat)
  : ServerSideHelpers.Collaborators := {|
  ServerSideHelpers.Session := string;
  ServerSideHelpers.User := string;
  ServerSideHelpers.Features := unit;
  ServerSideHelpers.Helpers := nat;
  ServerSideHelpers.DehydratedState := string;
  ServerSideHelpers.Redirect := string;
  ServerSideHelpers.Value := Z;
  ServerSideHelpers.IncomingMessage := unit;
  ServerSideHelpers.Failure := string;
  ServerSideHelpers.session_user := fun s => s;
  ServerSideHelpers.getServerAuthSession_ext := fun _ => auth;
  ServerSideHelpers.getFeatureFlagsLazy_ext := fun _ _ => flags;
  ServerSideHelpers.createServerSideHelpers_ext := fun _ _ => helpers;
  ServerSideHelpers.dehydrate := fun _ => "snapshot";
|}.

(** The session resolver rejects. *)
Definition auth_down : ServerSideHelpers.Collaborators :=
  collaborators_with (inl "auth down") (inr tt) (inr 1).

(** Feature-flag resolution throws. *)
Definition flags_down : ServerSideHelpers.Collaborators :=
  collaborators_with (inr (Some "alice")) (inl "flags down") (inr 1).

(** Building the prefetch context throws. *)
Definition helpers_down : ServerSideHelpers.Collaborators :=
  collaborators_with (inr (Some "alice")) (inr tt) (inl "helpers down").

Import ServerSideHelpers.

(** A full page load, for collaborators chosen by the caller. *)
Definition page_load_with (auth : string + option string)
    (flags : string + unit) (helpers : string + nat)
  : @GetServerSidePropsContext (collaborators_with auth flags helpers) :=
  @Build_GetServerSidePropsContext (collaborators_with auth flags helpers)
    (Some "/models/1") None tt.

Definition void_resolver_with (auth : string + option string)
    (flags : string + unit) (helpers : string + nat)
  : @Resolver (collaborators_with auth flags helpers) :=
  fun _ => inr None.

(** A resolver that rejects. *)
#[local] Existing Instance Samples.collaborators.

Definition failing_resolver : @Resolver Samples.collaborators :=
  fun _ => inl "resolver down".

(** A resolver whose props are still a promise. *)
Definition promise_resolver : @Resolver Samples.collaborators :=
  fun _ => inr (Some {| props := Some (PromiseProps {[ "foo" := 1%Z ]});
                        redirect := None; notFound := false |}).

(** A resolver that sets the reserved key itself. *)
Definition trpcState_resolver : @Resolver Samples.collaborators :=
  fun _ => inr (Some {| props := Some (PlainProps
                                         {[ "foo" := 1%Z;
                                            "trpcState" := 2%Z ]});
                        redirect := None; notFound := false |}).

(** [useSSG: false] with every other option set. *)
Definition no_ssg : CreateServerSidePropsProps :=
  {| useSSG := Some false; useSession := Some true; prefetch := Some always |}.

End MoreSamples.

(** * Properties *)

(** ** Helper facts *)

Lemma truthy_string_nonempty s : JS.truthy_string s = true <-> s <> "".
Proof.
  unfold JS.truthy_string. destruct (String.eqb_spec s ""); simpl; split;
    congruence.
Qed.

Lemma truthy_number_nonzero n : JS.truthy_number n = true <-> n <> 0%Z.
Proof.
  unfold JS.truthy_number. destruct (Z.eqb_spec n 0); simpl; split; congruence.
Qed.

Lemma isDirty_reset d f : Form.isDirty (Form.reset d f) = false.
Proof. unfold Form.isDirty, Form.reset; simpl. now rewrite String.eqb_refl. Qed.

Lemma isDirty_useForm d : Form.isDirty (Form.useForm d) = false.
Proof. unfold Form.isDirty, Form.useForm; simpl. now rewrite String.eqb_refl. Qed.

Lemma isDirty_true f :
  Form.isDirty f = true <-> Form.values f <> Form.baseline f.
Proof.
  unfold Form.isDirty.
  destruct (String.eqb_spec (Form.values f) (Form.baseline f)); simpl; split;
    congruence.
Qed.

(** A freshly mounted widget is clean, in both variants. *)
Lemma mount_clean_V1 p : Form.isDirty (V1.form (V1.mount p)) = false.
Proof. apply isDirty_useForm. Qed.

Lemma mount_clean_V2 p : Form.isDirty (V2.form (V2.mount p)) = false.
Proof. apply isDirty_useForm. Qed.

(** [updateReview] without an entity is the early [return]. *)
Lemma updateReview_no_review_V1 p rating details st :
  V1.resourceReview p = None -> V1.updateReview p rating details st = st.
Proof. intros Hp. unfold V1.updateReview. now rewrite Hp. Qed.

Lemma updateReview_no_review_V2 p rating details st :
  V2.userReview p = None -> V2.updateReview p rating details st = st.
Proof. intros Hp. unfold V2.updateReview. now rewrite Hp. Qed.

(** A success callback for a request without a usable [details] leaves the
    widget alone; this is how a rating-only update is told apart. *)
Lemma onSuccess_falsy_details_V1 rendered request st :
  JS.truthy_opt JS.truthy_string (u_details request) = false ->
  V1.updateReview_onSuccess rendered request st = st.
Proof. intros Hd. unfold V1.updateReview_onSuccess. now rewrite Hd. Qed.

Lemma onSuccess_falsy_details_V2 payload st :
  JS.truthy_opt JS.truthy_string (u_details payload) = false ->
  V2.updateReview_onSuccess payload st = st.
Proof. intros Hd. unfold V2.updateReview_onSuccess. now rewrite Hd. Qed.

(** Toggling never touches the form or the mutation log. *)
Lemma toggleEditDetail_frame rendered st :
  V1.form (V1.toggleEditDetail rendered st) = V1.form st
  /\ V1.calls (V1.toggleEditDetail rendered st) = V1.calls st
  /\ V1.editDetail (V1.toggleEditDetail rendered st) = negb (V1.editDetail st).
Proof. unfold V1.toggleEditDetail. destruct rendered; simpl; auto. Qed.

(** ** Rating changes *)

(** C1: for every rating [r], when [resourceReview?.id] is falsy (no review
    entity, hence no review id), [handleRatingChange r] hands the mutation
    client exactly one more call, a create call whose payload holds the model
    version id, the model id, the rating [r] and [recommended = (r >= 3)];
    no update call is issued and the rest of the widget state is unchanged. *)
Theorem handleRatingChange_create (p : V1.Props) (st : V1.State) (r : Z) :
  JS.truthy_opt JS.truthy_number (optional_id (V1.resourceReview p)) = false ->
  forall recommended : bool,
    (recommended = true <-> (r >= 3)%Z) ->
    V1.calls (V1.handleRatingChange p r st)
      = (V1.calls st
         ++ [CreateCall {| c_modelVersionId := V1.modelVersionId p;
                           c_modelId := V1.modelId p;
                           c_rating := r;
                           c_recommended := recommended |}])%list
    /\ V1.form (V1.handleRatingChange p r st) = V1.form st
    /\ V1.editDetail (V1.handleRatingChange p r st) = V1.editDetail st
    /\ V1.focusTimers (V1.handleRatingChange p r st) = V1.focusTimers st.
Proof.
  intros Hid recommended Hrec.
  unfold V1.handleRatingChange. rewrite Hid. simpl.
  assert (Hb : (3 <=? r)%Z = recommended).
  { destruct recommended.
    - apply Z.leb_le. assert ((r >= 3)%Z) by now apply Hrec. lia.
    - apply Z.leb_gt. destruct (Z.lt_ge_cases r 3) as [Hlt | Hge]; [easy |].
      assert (false = true) by (apply Hrec; lia). discriminate. }
  rewrite Hb. repeat split.
Qed.

Lemma handleRatingChange_create_witness :
  JS.truthy_opt JS.truthy_number
    (optional_id (V1.resourceReview Samples.no_review)) = false
  /\ (true = true <-> (5 >= 3)%Z)
  /\ V1.calls (V1.handleRatingChange Samples.no_review 5
                 (V1.mount Samples.no_review))
     = [CreateCall {| c_modelVersionId := 22; c_modelId := 11; c_rating := 5;
                      c_recommended := true |}].
Proof.
  assert (Hrec : true = true <-> (5 >= 3)%Z) by (split; [lia | reflexivity]).
  split; [reflexivity |]. split; [exact Hrec |].
  exact (proj1 (handleRatingChange_create Samples.no_review
                  (V1.mount Samples.no_review) 5 eq_refl true Hrec)).
Defined.

(** C3 as stated fails when the entity's id is the number zero: the entity
    exists, yet [!resourceReview?.id] holds, so the handler issues a create
    call and no update call. *)
Lemma handleRatingChange_zero_id_creates :
  V1.resourceReview (Samples.props_of Samples.zero_id_review)
    = Some Samples.zero_id_review
  /\ V1.calls (V1.handleRatingChange (Samples.props_of Samples.zero_id_review)
                 4 (V1.mount (Samples.props_of Samples.zero_id_review)))
     = [CreateCall {| c_modelVersionId := 22; c_modelId := 11; c_rating := 4;
                      c_recommended := true |}]
  /\ ~ (exists payload,
          V1.calls (V1.handleRatingChange
                      (Samples.props_of Samples.zero_id_review)
                      4 (V1.mount (Samples.props_of Samples.zero_id_review)))
          = [UpdateCall payload]).
Proof.
  split; [reflexivity |]. split; [reflexivity |].
  intros [payload Hp]. vm_compute in Hp. discriminate.
Qed.

(** C3 (amended): for every rating [r], when a review entity with a truthy
    (non-zero) id exists, [handleRatingChange r] hands the mutation client
    exactly one more call, an update call carrying the entity's id and
    [rating = r] with [details] left [undefined]; no create call is issued
    and the rest of the widget state is unchanged. *)
Theorem handleRatingChange_update (p : V1.Props) (rr : ResourceReviewModel)
    (st : V1.State) (r : Z) :
  V1.resourceReview p = Some rr ->
  rr_id rr <> 0%Z ->
  V1.calls (V1.handleRatingChange p r st)
    = (V1.calls st
       ++ [UpdateCall {| u_id := rr_id rr; u_rating := Some r;
                         u_details := None |}])%list
  /\ V1.form (V1.handleRatingChange p r st) = V1.form st
  /\ V1.editDetail (V1.handleRatingChange p r st) = V1.editDetail st
  /\ V1.focusTimers (V1.handleRatingChange p r st) = V1.focusTimers st.
Proof.
  intros Hp Hid.
  unfold V1.handleRatingChange, V1.updateReview. rewrite Hp. simpl.
  apply truthy_number_nonzero in Hid. rewrite Hid. simpl.
  repeat split.
Qed.

Lemma handleRatingChange_update_witness :
  V1.resourceReview (Samples.props_of Samples.nice_review)
    = Some Samples.nice_review
  /\ rr_id Samples.nice_review <> 0%Z
  /\ V1.calls (V1.handleRatingChange (Samples.props_of Samples.nice_review) 2
                 (V1.mount (Samples.props_of Samples.nice_review)))
     = [UpdateCall {| u_id := 7; u_rating := Some 2%Z; u_details := None |}].
Proof.
  assert (Hid : rr_id Samples.nice_review <> 0%Z) by (simpl; lia).
  split; [reflexivity |]. split; [exact Hid |].
  exact (proj1 (handleRatingChange_update (Samples.props_of Samples.nice_review)
                  Samples.nice_review
                  (V1.mount (Samples.props_of Samples.nice_review)) 2
                  eq_refl Hid)).
Defined.

(** ** Saving the comment *)

(** C2 as stated fails in two ways.  First, a submitted [details] that is the
    empty string is falsy: the callback does nothing, the form stays dirty
    and the editor stays open.  Second, the callback flips the editor rather
    than closing it: when the editor is closed at the time the update
    succeeds, it opens (in both variants). *)
Lemma onSuccess_not_always_reset_and_collapsed :
  (let request := {| u_id := 7; u_rating := None; u_details := Some "" |} in
   let st := Samples.cleared_and_submitted in
   V1.calls st = [UpdateCall request]
   /\ V1.editDetail st = true
   /\ Form.isDirty (V1.form (V1.updateReview_onSuccess true request st)) = true
   /\ V1.editDetail (V1.updateReview_onSuccess true request st) = true)
  /\
  (let request := {| u_id := 7; u_rating := None;
                     u_details := Some "great" |} in
   let st := Samples.cancelled_then_saved in
   V1.calls st = [UpdateCall request]
   /\ V1.editDetail st = false
   /\ V1.editDetail (V1.updateReview_onSuccess false request st) = true)
  /\
  (let request := {| u_id := 7; u_rating := None;
                     u_details := Some "great" |} in
   let st := Samples.closed_then_saved in
   V2.calls st = [UpdateCall request]
   /\ V2.opened st = false
   /\ V2.opened (V2.updateReview_onSuccess request st) = true).
Proof. vm_compute. repeat split. Qed.

(** C2 (amended): after every successful update call whose submitted payload
    carried a non-empty [details], the form is reset to the details value
    that was submitted, so the dirty flag is false, and the editor's expanded
    state is flipped exactly once, which collapses it when it was expanded;
    no further mutation call is issued.  This holds in both variants and
    whatever render the callback was created in. *)
Theorem onSuccess_resets_and_toggles (request : UpdateInput) (d : string) :
  u_details request = Some d ->
  d <> "" ->
  (forall (rendered : bool) (st : V1.State),
     V1.form (V1.updateReview_onSuccess rendered request st)
       = {| Form.values := d; Form.baseline := d |}
     /\ Form.isDirty (V1.form (V1.updateReview_onSuccess rendered request st))
        = false
     /\ V1.editDetail (V1.updateReview_onSuccess rendered request st)
        = negb (V1.editDetail st)
     /\ (V1.editDetail st = true ->
         V1.editDetail (V1.updateReview_onSuccess rendered request st) = false)
     /\ V1.calls (V1.updateReview_onSuccess rendered request st) = V1.calls st)
  /\
  (forall st : V2.State,
     V2.form (V2.updateReview_onSuccess request st)
       = {| Form.values := d; Form.baseline := d |}
     /\ Form.isDirty (V2.form (V2.updateReview_onSuccess request st)) = false
     /\ V2.opened (V2.updateReview_onSuccess request st) = negb (V2.opened st)
     /\ (V2.opened st = true ->
         V2.opened (V2.updateReview_onSuccess request st) = false)
     /\ V2.calls (V2.updateReview_onSuccess request st) = V2.calls st).
Proof.
  intros Hd Hne. apply truthy_string_nonempty in Hne.
  split.
  - intros rendered st. unfold V1.updateReview_onSuccess.
    rewrite Hd. simpl. rewrite Hne.
    destruct (toggleEditDetail_frame rendered st) as (_ & Hc & He).
    simpl. repeat split.
    + apply isDirty_reset.
    + exact He.
    + intros Ht. rewrite He, Ht. reflexivity.
    + exact Hc.
  - intros st. unfold V2.updateReview_onSuccess.
    rewrite Hd. simpl. rewrite Hne. simpl. repeat split.
    + apply isDirty_reset.
    + intros Ht. now rewrite Ht.
Qed.

Lemma onSuccess_resets_and_toggles_witness :
  u_details {| u_id := 7; u_rating := None; u_details := Some "great" |}
    = Some "great"
  /\ "great" <> ""
  /\ V1.form (V1.updateReview_onSuccess true
                {| u_id := 7; u_rating := None; u_details := Some "great" |}
                (V1.Form_onSubmit (Samples.props_of Samples.nice_review)
                   Samples.typing))
     = {| Form.values := "great"; Form.baseline := "great" |}
  /\ V1.editDetail (V1.updateReview_onSuccess true
                      {| u_id := 7; u_rating := None;
                         u_details := Some "great" |}
                      (V1.Form_onSubmit (Samples.props_of Samples.nice_review)
                         Samples.typing))
     = false.
Proof.
  assert (Hne : "great" <> "") by discriminate.
  split; [reflexivity |]. split; [exact Hne |].
  destruct (proj1 (onSuccess_resets_and_toggles
                     {| u_id := 7; u_rating := None;
                        u_details := Some "great" |}
                     "great" eq_refl Hne)
              true
              (V1.Form_onSubmit (Samples.props_of Samples.nice_review)
                 Samples.typing))
    as (Hform & _ & _ & Hcollapse & _).
  split; [exact Hform | exact (Hcollapse eq_refl)].
Defined.

(** C4: for every form state, in both variants: when the dirty flag is
    false, [save()] changes nothing (no submit, no mutation call); when it
    is true, [save()] has exactly the effect of a manual form submission,
    which invokes [handleSubmit] once with the current field value, and so,
    when the review exists, issues exactly one update call carrying that
    value as [details]. *)
Theorem save_flushes_iff_dirty :
  (forall (p : V1.Props) (st : V1.State),
     (Form.isDirty (V1.form st) = false -> V1.save p st = st)
     /\ (Form.isDirty (V1.form st) = true ->
         V1.save p st = V1.Form_onSubmit p st
         /\ V1.save p st = V1.handleSubmit p (Form.values (V1.form st)) st
         /\ forall rr, V1.resourceReview p = Some rr ->
              V1.calls (V1.save p st)
              = (V1.calls st
                 ++ [UpdateCall {| u_id := rr_id rr; u_rating := None;
                                   u_details :=
                                     Some (Form.values (V1.form st)) |}])%list))
  /\
  (forall (p : V2.Props) (st : V2.State),
     (Form.isDirty (V2.form st) = false -> V2.save p st = st)
     /\ (Form.isDirty (V2.form st) = true ->
         V2.save p st = V2.Form_onSubmit p st
         /\ V2.save p st = V2.handleSubmit p (Form.values (V2.form st)) st
         /\ forall rr, V2.userReview p = Some rr ->
              V2.calls (V2.save p st)
              = (V2.calls st
                 ++ [UpdateCall {| u_id := rr_id rr; u_rating := None;
                                   u_details :=
                                     Some (Form.values (V2.form st)) |}])%list)).
Proof.
  split; intros p st; split; intros Hdirty.
  - unfold V1.save. now rewrite Hdirty.
  - unfold V1.save, V1.Form_onSubmit, Form.handleSubmit. rewrite Hdirty.
    repeat split. intros rr Hrr.
    unfold V1.handleSubmit, V1.updateReview. now rewrite Hrr.
  - unfold V2.save. now rewrite Hdirty.
  - unfold V2.save, V2.Form_onSubmit, Form.handleSubmit. rewrite Hdirty.
    repeat split. intros rr Hrr.
    unfold V2.handleSubmit, V2.updateReview. now rewrite Hrr.
Qed.

Lemma save_flushes_iff_dirty_witness :
  (Form.isDirty (V1.form (V1.mount (Samples.props_of Samples.nice_review)))
     = false
   /\ V1.save (Samples.props_of Samples.nice_review)
        (V1.mount (Samples.props_of Samples.nice_review))
      = V1.mount (Samples.props_of Samples.nice_review))
  /\ (Form.isDirty (V1.form Samples.typing) = true
      /\ V1.calls (V1.save (Samples.props_of Samples.nice_review)
                     Samples.typing)
         = [UpdateCall {| u_id := 7; u_rating := None;
                          u_details := Some "great" |}])
  /\ (Form.isDirty (V2.form Samples.typingV2) = true
      /\ V2.calls (V2.save (Samples.propsV2_of Samples.nice_review)
                     Samples.typingV2)
         = [UpdateCall {| u_id := 7; u_rating := None;
                          u_details := Some "great" |}]).
Proof.
  destruct save_flushes_iff_dirty as [H1 H2].
  split; [| split].
  - split; [reflexivity |].
    exact (proj1 (H1 (Samples.props_of Samples.nice_review)
                     (V1.mount (Samples.props_of Samples.nice_review)))
             eq_refl).
  - split; [reflexivity |].
    exact (proj2 (proj2 (proj2 (H1 (Samples.props_of Samples.nice_review)
                                   Samples.typing) eq_refl))
             Samples.nice_review eq_refl).
  - split; [reflexivity |].
    exact (proj2 (proj2 (proj2 (H2 (Samples.propsV2_of Samples.nice_review)
                                   Samples.typingV2) eq_refl))
             Samples.nice_review eq_refl).
Defined.

(** ** Resynchronising with the entity *)

(** C5: for every prior form state (any pending value, dirty or not), in both
    variants, when a re-render brings a different [details] value for the
    entity, the form is reset to the entity's new details, or to the empty
    string when the entity or its details is absent; the local edit is
    discarded and the form is clean. *)
Theorem resync_server_wins :
  (forall (old new : V1.Props) (st : V1.State),
     optional_details (V1.resourceReview old)
       <> optional_details (V1.resourceReview new) ->
     V1.form (V1.rerender old new st)
       = {| Form.values := details_or_empty (V1.resourceReview new);
            Form.baseline := details_or_empty (V1.resourceReview new) |}
     /\ Form.isDirty (V1.form (V1.rerender old new st)) = false
     /\ (V1.resourceReview new = None ->
         Form.values (V1.form (V1.rerender old new st)) = "")
     /\ (forall rr, V1.resourceReview new = Some rr ->
         Form.values (V1.form (V1.rerender old new st))
         = match rr_details rr with Some d => d | None => "" end))
  /\
  (forall (old new : V2.Props) (st : V2.State),
     optional_details (V2.userReview old)
       <> optional_details (V2.userReview new) ->
     V2.form (V2.rerender old new st)
       = {| Form.values := details_or_empty (V2.userReview new);
            Form.baseline := details_or_empty (V2.userReview new) |}
     /\ Form.isDirty (V2.form (V2.rerender old new st)) = false
     /\ (V2.userReview new = None ->
         Form.values (V2.form (V2.rerender old new st)) = "")
     /\ (forall rr, V2.userReview new = Some rr ->
         Form.values (V2.form (V2.rerender old new st))
         = match rr_details rr with Some d => d | None => "" end)).
Proof.
  split; intros old new st Hchanged.
  - unfold V1.rerender. case_decide; [contradiction |].
    unfold V1.resync; simpl. repeat split.
    + apply isDirty_reset.
    + intros Hn. now rewrite Hn.
    + intros rr Hn. rewrite Hn. unfold details_or_empty; simpl.
      now destruct (rr_details rr).
  - unfold V2.rerender. case_decide; [contradiction |].
    unfold V2.resync; simpl. repeat split.
    + apply isDirty_reset.
    + intros Hn. now rewrite Hn.
    + intros rr Hn. rewrite Hn. unfold details_or_empty; simpl.
      now destruct (rr_details rr).
Qed.

Lemma resync_server_wins_witness :
  optional_details (V1.resourceReview (Samples.props_of Samples.nice_review))
    <> optional_details
         (V1.resourceReview (Samples.props_of Samples.fresh_review))
  /\ Form.isDirty (V1.form Samples.typing) = true
  /\ V1.form (V1.rerender (Samples.props_of Samples.nice_review)
                (Samples.props_of Samples.fresh_review) Samples.typing)
     = {| Form.values := "fresh"; Form.baseline := "fresh" |}
  /\ V2.form (V2.rerender (Samples.propsV2_of Samples.nice_review)
                (Samples.propsV2_of Samples.fresh_review) Samples.typingV2)
     = {| Form.values := "fresh"; Form.baseline := "fresh" |}.
Proof.
  assert (Hne : optional_details (Some Samples.nice_review)
                <> optional_details (Some Samples.fresh_review))
    by discriminate.
  split; [exact Hne |]. split; [reflexivity |]. split.
  - exact (proj1 (proj1 resync_server_wins
                    (Samples.props_of Samples.nice_review)
                    (Samples.props_of Samples.fresh_review)
                    Samples.typing Hne)).
  - exact (proj1 (proj2 resync_server_wins
                    (Samples.propsV2_of Samples.nice_review)
                    (Samples.propsV2_of Samples.fresh_review)
                    Samples.typingV2 Hne)).
Defined.

(** ** The server-side props builder *)

Section BuilderFacts.

Import ServerSideHelpers.
Context `{Collaborators}.

(** The log and the outcome of a sequence of two steps. *)
Lemma trace_bind {A B} (m : M A) (k : A -> M B) :
  trace (bind m k)
  = (trace m ++ match outcome m with
                | inr a => trace (k a)
                | inl _ => []
                end)%list.
Proof.
  destruct m as [t [e | a]]; simpl.
  - now rewrite app_nil_r.
  - now destruct (k a).
Qed.

Lemma outcome_bind {A B} (m : M A) (k : A -> M B) :
  outcome (bind m k)
  = match outcome m with
    | inr a => outcome (k a)
    | inl e => inl e
    end.
Proof.
  destruct m as [t [e | a]]; simpl; [reflexivity |]. now destruct (k a).
Qed.

Lemma trace_call {A} (ev : Event) (r : Failure + A) : trace (call ev r) = [ev].
Proof. reflexivity. Qed.

Lemma outcome_call {A} (ev : Event) (r : Failure + A) :
  outcome (call ev r) = r.
Proof. reflexivity. Qed.

Lemma trace_ret {A} (a : A) : trace (ret a) = [].
Proof. reflexivity. Qed.

Lemma outcome_ret {A} (a : A) : outcome (ret a) = inr a.
Proof. reflexivity. Qed.

Lemma helpers_built_app (t1 t2 : list Event) :
  helpers_built (t1 ++ t2) = helpers_built t1 + helpers_built t2.
Proof.
  unfold helpers_built. now rewrite List.filter_app, length_app.
Qed.

(** Session resolution constructs no prefetch context and never invokes the
    resolver. *)
Lemma resolve_session_trace o context :
  trace (resolve_session o context) = []
  \/ trace (resolve_session o context) = [EvGetServerAuthSession].
Proof.
  unfold resolve_session.
  destruct (req_session context); [now left |].
  destruct (JS.nullish (useSession o) false); [now right | now left].
Qed.

(** The three ways the session is obtained. *)
Lemma resolve_session_rule o context :
  (forall s, req_session context = Some s ->
     resolve_session o context = ret (Some s))
  /\ (req_session context = None -> useSession o = Some true ->
      resolve_session o context = getServerAuthSession context)
  /\ (req_session context = None ->
      (useSession o = None \/ useSession o = Some false) ->
      resolve_session o context = ret None).
Proof.
  unfold resolve_session. repeat split.
  - intros s Hs. now rewrite Hs.
  - intros Hs Hu. now rewrite Hs, Hu.
  - intros Hs [Hu | Hu]; now rewrite Hs, Hu.
Qed.

Lemma build_ssg_trace o context client s f :
  trace (build_ssg o context client s f)
  = if wants_ssg o client
    then [EvCreateServerSideHelpers (optional_user s)]
    else [].
Proof.
  unfold build_ssg, getServerProxySSGHelpers, call.
  destruct (wants_ssg o client); [| reflexivity].
  now destruct (createServerSideHelpers_ext (optional_user s) f).
Qed.

Lemma build_ssg_outcome o context client s f :
  outcome (build_ssg o context client s f)
  = if wants_ssg o client
    then match createServerSideHelpers_ext (optional_user s) f with
         | inr h => inr (Some h)
         | inl e => inl e
         end
    else inr None.
Proof.
  unfold build_ssg, getServerProxySSGHelpers, call.
  destruct (wants_ssg o client); [| reflexivity].
  now destruct (createServerSideHelpers_ext (optional_user s) f).
Qed.

(** The handler, step by step: its log. *)
Lemma createServerSideProps_trace o resolver context :
  trace (createServerSideProps o resolver context)
  = (trace (resolve_session o context)
     ++ match outcome (resolve_session o context) with
        | inl _ => []
        | inr s =>
            EvGetFeatureFlagsLazy (optional_user s)
            :: match getFeatureFlagsLazy_ext (optional_user s)
                       (req_rest context) with
               | inl _ => []
               | inr f =>
                   trace (build_ssg o context (is_client context) s f)
                   ++ match outcome (build_ssg o context (is_client context)
                                       s f) with
                      | inl _ => []
                      | inr h =>
                          [EvResolver {| ctx := context;
                                         isClient := is_client context;
                                         ssg := h; session := s;
                                         features := f |}]
                      end
               end
        end)%list.
Proof.
  unfold createServerSideProps. rewrite trace_bind. f_equal.
  destruct (outcome (resolve_session o context)) as [e | s]; [reflexivity |].
  rewrite trace_bind. unfold getFeatureFlagsLazy.
  rewrite trace_call, outcome_call. cbn [app]. f_equal.
  destruct (getFeatureFlagsLazy_ext (optional_user s) (req_rest context))
    as [e | f]; [reflexivity |].
  rewrite trace_bind. f_equal.
  destruct (outcome (build_ssg o context (is_client context) s f))
    as [e | h]; [reflexivity |].
  rewrite trace_bind, trace_call, outcome_call.
  destruct (resolver _); [reflexivity |].
  now rewrite trace_ret.
Qed.

(** The handler, step by step: its outcome. *)
Lemma createServerSideProps_outcome o resolver context :
  outcome (createServerSideProps o resolver context)
  = match outcome (resolve_session o context) with
    | inl e => inl e
    | inr s =>
        match getFeatureFlagsLazy_ext (optional_user s) (req_rest context) with
        | inl e => inl e
        | inr f =>
            match outcome (build_ssg o context (is_client context) s f) with
            | inl e => inl e
            | inr h =>
                match resolver {| ctx := context;
                                  isClient := is_client context;
                                  ssg := h; session := s;
                                  features := f |} with
                | inl e => inl e
                | inr result => inr (interpret s h result)
                end
            end
        end
    end.
Proof.
  unfold createServerSideProps. rewrite outcome_bind.
  destruct (outcome (resolve_session o context)) as [e | s]; [reflexivity |].
  rewrite outcome_bind. unfold getFeatureFlagsLazy. rewrite outcome_call.
  destruct (getFeatureFlagsLazy_ext (optional_user s) (req_rest context))
    as [e | f]; [reflexivity |].
  rewrite outcome_bind.
  destruct (outcome (build_ssg o context (is_client context) s f))
    as [e | h]; [reflexivity |].
  rewrite outcome_bind, outcome_call.
  now destruct (resolver _).
Qed.

(** Whenever the resolver is invoked, the earlier steps succeeded, its
    arguments are the ones the handler computed, and the handler's outcome is
    read off the resolver's result. *)
Lemma resolver_invoked o resolver context args :
  In (EvResolver args) (trace (createServerSideProps o resolver context)) ->
  ctx args = context
  /\ isClient args = is_client context
  /\ outcome (resolve_session o context) = inr (session args)
  /\ getFeatureFlagsLazy_ext (optional_user (session args)) (req_rest context)
     = inr (features args)
  /\ outcome (build_ssg o context (is_client context) (session args)
                (features args)) = inr (ssg args)
  /\ outcome (createServerSideProps o resolver context)
     = match resolver args with
       | inl e => inl e
       | inr result => inr (interpret (session args) (ssg args) result)
       end.
Proof.
  rewrite createServerSideProps_trace, createServerSideProps_outcome.
  intros Hin. apply in_app_or in Hin. destruct Hin as [Hin | Hin].
  { destruct (resolve_session_trace o context) as [Ht | Ht];
      rewrite Ht in Hin; simpl in Hin; intuition discriminate. }
  destruct (outcome (resolve_session o context)) as [e | s]; [easy |].
  destruct Hin as [Hin | Hin]; [discriminate |].
  destruct (getFeatureFlagsLazy_ext (optional_user s) (req_rest context))
    as [e | f] eqn:Hf; [easy |].
  apply in_app_or in Hin. destruct Hin as [Hin | Hin].
  { rewrite build_ssg_trace in Hin.
    destruct (wants_ssg o (is_client context)); simpl in Hin;
      intuition discriminate. }
  destruct (outcome (build_ssg o context (is_client context) s f))
    as [e | h] eqn:Hh; [easy |].
  destruct Hin as [Hin | []]. injection Hin as <-. simpl.
  now rewrite Hf, Hh.
Qed.

(** Conversely, when the earlier steps succeed the resolver is invoked, once,
    as the last external call. *)
Lemma resolver_reached o resolver context s f h :
  outcome (resolve_session o context) = inr s ->
  getFeatureFlagsLazy_ext (optional_user s) (req_rest context) = inr f ->
  outcome (build_ssg o context (is_client context) s f) = inr h ->
  In (EvResolver {| ctx := context; isClient := is_client context; ssg := h;
                    session := s; features := f |})
     (trace (createServerSideProps o resolver context)).
Proof.
  intros Hs Hf Hh. rewrite createServerSideProps_trace, Hs, Hf, Hh.
  apply in_or_app. right. right. apply in_or_app. right. now left.
Qed.

(** C6 (amended): for every request handled by the generated handler.  With
    [prefetch = 'once'] (written or defaulted) and a request path that starts
    with [/_next/data], no prefetch context is constructed and the resolver
    receives none.  With [useSSG] set and [prefetch = 'always'], once the
    session and the feature flags are resolved, exactly one prefetch context
    is constructed, whether or not the request is a soft navigation, and a
    resolver that is invoked receives it. *)
Theorem prefetch_once_skips_always_builds o resolver context :
  (JS.nullish (prefetch o) once = once ->
   is_client context = true ->
   helpers_built (trace (createServerSideProps o resolver context)) = 0
   /\ forall args,
        In (EvResolver args) (trace (createServerSideProps o resolver context))
        -> ssg args = None)
  /\
  (useSSG o = Some true ->
   prefetch o = Some always ->
   forall s f,
     outcome (resolve_session o context) = inr s ->
     getFeatureFlagsLazy_ext (optional_user s) (req_rest context) = inr f ->
     helpers_built (trace (createServerSideProps o resolver context)) = 1
     /\ forall args,
          In (EvResolver args)
             (trace (createServerSideProps o resolver context))
          -> exists h, ssg args = Some h).
Proof.
  split.
  - intros Honce Hclient.
    assert (Hwants : wants_ssg o true = false).
    { unfold wants_ssg. rewrite Honce. simpl. apply andb_false_r. }
    split.
    + rewrite createServerSideProps_trace, helpers_built_app, Hclient.
      assert (Hs : helpers_built (trace (resolve_session o context)) = 0)
        by (destruct (resolve_session_trace o context) as [-> | ->];
            reflexivity).
      rewrite Hs.
      destruct (outcome (resolve_session o context)) as [e | s];
        [reflexivity |].
      destruct (getFeatureFlagsLazy_ext (optional_user s) (req_rest context))
        as [e | f]; [reflexivity |].
      rewrite build_ssg_trace, build_ssg_outcome, Hwants. reflexivity.
    + intros args Hin.
      destruct (resolver_invoked _ _ _ _ Hin) as (_ & _ & _ & _ & Hh & _).
      rewrite build_ssg_outcome, Hclient, Hwants in Hh. congruence.
  - intros Hssg Halways s f Hs Hf.
    assert (Hwants : wants_ssg o (is_client context) = true).
    { unfold wants_ssg. now rewrite Hssg, Halways. }
    split.
    + rewrite createServerSideProps_trace, helpers_built_app, Hs, Hf.
      assert (H0 : helpers_built (trace (resolve_session o context)) = 0)
        by (destruct (resolve_session_trace o context) as [-> | ->];
            reflexivity).
      rewrite H0, build_ssg_trace, build_ssg_outcome, Hwants.
      now destruct (createServerSideHelpers_ext (optional_user s) f).
    + intros args Hin.
      destruct (resolver_invoked _ _ _ _ Hin) as (_ & _ & _ & _ & Hh & _).
      rewrite build_ssg_outcome, Hwants in Hh.
      destruct (createServerSideHelpers_ext _ _) as [e | h];
        [discriminate |]. exists h. congruence.
Qed.

(** C7: whenever the resolver, invoked by the handler, returns a result with
    a redirect, the handler's output is exactly [{ redirect }], whatever else
    the result holds: no props object, no session, no prefetch snapshot.
    Likewise a not-found result (no redirect, [notFound] set) yields exactly
    [{ notFound }]. *)
Theorem terminal_outcome_replaces_props o resolver context args r :
  In (EvResolver args) (trace (createServerSideProps o resolver context)) ->
  resolver args = inr (Some r) ->
  (forall rd, redirect r = Some rd ->
     outcome (createServerSideProps o resolver context)
     = inr (OutRedirect rd))
  /\ (redirect r = None -> notFound r = true ->
      outcome (createServerSideProps o resolver context) = inr OutNotFound).
Proof.
  intros Hin Hres.
  destruct (resolver_invoked _ _ _ _ Hin) as (_ & _ & _ & _ & _ & Hout).
  rewrite Hres in Hout. rewrite Hout. unfold interpret. split.
  - intros rd Hrd. now rewrite Hrd.
  - intros Hrd Hnf. now rewrite Hrd, Hnf.
Qed.

(** The properties of the final props object, key by key. *)
Lemma final_props_lookup s p h :
  final_props s p h !! "trpcState"
  = match h with
    | Some g => Some (TrpcStateValue (dehydrate g))
    | None => spread_props p !! "trpcState"
    end
  /\ final_props s p h !! "session"
     = match spread_props p !! "session" with
       | Some v => Some v
       | None => Some (SessionValue s)
       end
  /\ forall k, k <> "session" -> k <> "trpcState" ->
       final_props s p h !! k = spread_props p !! k.
Proof.
  unfold final_props, spread_trpcState. repeat split.
  - destruct h as [g |].
    + apply lookup_union_Some_l. apply lookup_singleton_eq.
    + rewrite (left_id ∅ (∪)).
      rewrite lookup_union_l; [reflexivity |].
      now apply lookup_singleton_ne.
  - assert (Hnone : spread_trpcState h !! "session" = None).
    { destruct h; simpl; [now apply lookup_singleton_ne | apply lookup_empty]. }
    unfold spread_trpcState in Hnone.
    rewrite lookup_union_r by exact Hnone.
    destruct (spread_props p !! "session") as [v |] eqn:Hv.
    + now apply lookup_union_Some_l.
    + rewrite lookup_union_r by exact Hv. apply lookup_singleton_eq.
  - intros k Hs Ht.
    assert (Hnone : spread_trpcState h !! k = None).
    { destruct h; simpl; [now apply lookup_singleton_ne | apply lookup_empty]. }
    unfold spread_trpcState in Hnone.
    rewrite lookup_union_r by exact Hnone.
    rewrite lookup_union_l; [reflexivity |].
    now apply lookup_singleton_ne.
Qed.

(** C8 (amended): for every request, the session the handler uses is the one
    middleware attached to the request when there is one (the session
    resolver is then not called); otherwise the session resolver's result
    when [useSession] is set; otherwise [null].  That session is the one the
    resolver receives, and a props object the handler returns holds it under
    [session] unless the caller's own props define a [session] property. *)
Theorem session_rule o resolver context :
  (forall s, req_session context = Some s ->
     resolve_session o context = ret (Some s))
  /\ (req_session context = None -> useSession o = Some true ->
      resolve_session o context
      = call EvGetServerAuthSession
          (getServerAuthSession_ext (req_rest context)))
  /\ (req_session context = None -> useSession o <> Some true ->
      resolve_session o context = ret None)
  /\ (forall args,
        In (EvResolver args) (trace (createServerSideProps o resolver context))
        -> outcome (resolve_session o context) = inr (session args))
  /\ (forall args result p,
        In (EvResolver args) (trace (createServerSideProps o resolver context))
        -> resolver args = inr result
        -> outcome (createServerSideProps o resolver context)
           = inr (OutProps p)
        -> spread_props (result ≫= props) !! "session" = None
        -> p !! "session" = Some (SessionValue (session args))).
Proof.
  destruct (resolve_session_rule o context) as (Hatt & Hres & Hnull).
  split; [exact Hatt |]. split; [exact Hres |]. split; [| split].
  - intros Hs Hu. apply Hnull; [exact Hs |].
    destruct (useSession o) as [[] |]; [congruence | now right | now left].
  - intros args Hin. now destruct (resolver_invoked _ _ _ _ Hin) as (_ & _ & Hs & _).
  - intros args result p Hin Hr Hout Hfree.
    destruct (resolver_invoked _ _ _ _ Hin) as (_ & _ & _ & _ & _ & Hout').
    rewrite Hr, Hout in Hout'. injection Hout' as Hp.
    unfold interpret in Hp.
    destruct result as [r |]; simpl in Hfree.
    + destruct (redirect r); [discriminate |].
      destruct (notFound r); [discriminate |].
      injection Hp as ->.
      destruct (final_props_lookup (session args) (props r) (ssg args))
        as (_ & Hsess & _).
      now rewrite Hsess, Hfree.
    + injection Hp as ->.
      destruct (final_props_lookup (session args) None (ssg args))
        as (_ & Hsess & _).
      now rewrite Hsess.
Qed.

(** C9: when the resolver, invoked by the handler, returns nothing, the
    handler still returns a props object: it holds the session under
    [session], the serialized prefetch snapshot under [trpcState] exactly
    when a prefetch context was built, and nothing else. *)
Theorem void_result_yields_session_props o resolver context args :
  In (EvResolver args) (trace (createServerSideProps o resolver context)) ->
  resolver args = inr None ->
  exists p,
    outcome (createServerSideProps o resolver context) = inr (OutProps p)
    /\ p !! "session" = Some (SessionValue (session args))
    /\ p !! "trpcState"
       = (fun g => TrpcStateValue (dehydrate g)) <$> ssg args
    /\ forall k, k <> "session" -> k <> "trpcState" -> p !! k = None.
Proof.
  intros Hin Hres.
  destruct (resolver_invoked _ _ _ _ Hin) as (_ & _ & _ & _ & _ & Hout).
  rewrite Hres in Hout. simpl in Hout.
  exists (final_props (session args) None (ssg args)).
  destruct (final_props_lookup (session args) None (ssg args))
    as (Htrpc & Hsess & Hrest).
  split; [exact Hout |]. split; [| split].
  - rewrite Hsess. simpl. now rewrite lookup_empty.
  - rewrite Htrpc. destruct (ssg args); simpl; [reflexivity |].
    apply lookup_empty.
  - intros k Hk1 Hk2. rewrite (Hrest k Hk1 Hk2). simpl. apply lookup_empty.
Qed.

End BuilderFacts.

Section BuilderExamples.

Import ServerSideHelpers.
#[local] Existing Instance Samples.collaborators.

(** C6 as stated fails for [prefetch: 'always'] when [useSSG] is not set:
    no prefetch context is constructed, on a full page load or on a soft
    navigation, and the resolver receives none. *)
Lemma always_without_useSSG_builds_nothing :
  prefetch Samples.always_without_ssg = Some always
  /\ helpers_built
       (trace (createServerSideProps Samples.always_without_ssg
                 Samples.void_resolver Samples.page_load)) = 0
  /\ helpers_built
       (trace (createServerSideProps Samples.always_without_ssg
                 Samples.void_resolver Samples.soft_navigation)) = 0
  /\ trace (createServerSideProps Samples.always_without_ssg
              Samples.void_resolver Samples.page_load)
     = [EvGetFeatureFlagsLazy None;
        EvResolver {| ctx := Samples.page_load; isClient := false;
                      ssg := None; session := None; features := tt |}].
Proof. repeat split. Qed.

Lemma prefetch_once_skips_always_builds_witness :
  (JS.nullish (prefetch Samples.ssg_once) once = once
   /\ is_client Samples.soft_navigation = true
   /\ helpers_built
        (trace (createServerSideProps Samples.ssg_once Samples.foo_resolver
                  Samples.soft_navigation)) = 0)
  /\ (useSSG Samples.ssg_always = Some true
      /\ prefetch Samples.ssg_always = Some always
      /\ helpers_built
           (trace (createServerSideProps Samples.ssg_always
                     Samples.foo_resolver Samples.soft_navigation)) = 1).
Proof.
  split.
  - split; [reflexivity |]. split; [reflexivity |].
    exact (proj1 (proj1 (prefetch_once_skips_always_builds Samples.ssg_once
                           Samples.foo_resolver Samples.soft_navigation)
                    eq_refl eq_refl)).
  - split; [reflexivity |]. split; [reflexivity |].
    exact (proj1 (proj2 (prefetch_once_skips_always_builds Samples.ssg_always
                           Samples.foo_resolver Samples.soft_navigation)
                    eq_refl eq_refl (Some "alice") tt eq_refl eq_refl)).
Defined.

(** The resolver is reached with [Samples.page_load_args] on a full page
    load, whatever it then returns. *)
Lemma page_load_reaches_resolver resolver :
  In (EvResolver Samples.page_load_args)
     (trace (createServerSideProps Samples.ssg_once resolver
               Samples.page_load)).
Proof.
  exact (resolver_reached Samples.ssg_once resolver Samples.page_load
           (Some "alice") tt (Some 1) eq_refl eq_refl eq_refl).
Defined.

Lemma terminal_outcome_replaces_props_witness :
  outcome (createServerSideProps Samples.ssg_once Samples.redirect_resolver
             Samples.page_load) = inr (OutRedirect "/login")
  /\ outcome (createServerSideProps Samples.ssg_once Samples.notFound_resolver
                Samples.page_load) = inr OutNotFound.
Proof.
  split.
  - exact (proj1 (terminal_outcome_replaces_props Samples.ssg_once
                    Samples.redirect_resolver Samples.page_load
                    Samples.page_load_args _
                    (page_load_reaches_resolver _) eq_refl)
             "/login" eq_refl).
  - exact (proj2 (terminal_outcome_replaces_props Samples.ssg_once
                    Samples.notFound_resolver Samples.page_load
                    Samples.page_load_args _
                    (page_load_reaches_resolver _) eq_refl)
             eq_refl eq_refl).
Defined.

(** C8 as stated fails when the caller's props define [session] themselves:
    the handler resolved the session ["alice"] and handed it to the resolver,
    but the props object holds the caller's value under [session]. *)
Lemma caller_session_prop_overrides :
  In (EvResolver Samples.page_load_args)
     (trace (createServerSideProps Samples.ssg_once
               Samples.session_prop_resolver Samples.page_load))
  /\ session Samples.page_load_args = Some "alice"
  /\ exists p,
       outcome (createServerSideProps Samples.ssg_once
                  Samples.session_prop_resolver Samples.page_load)
       = inr (OutProps p)
       /\ p !! "session" = Some (CallerValue 99%Z)
       /\ p !! "session" <> Some (SessionValue (Some "alice")).
Proof.
  split; [apply page_load_reaches_resolver |]. split; [reflexivity |].
  eexists. split; [reflexivity |]. split; [| discriminate].
  vm_compute. reflexivity.
Qed.

Lemma session_rule_witness :
  outcome (createServerSideProps Samples.ssg_once Samples.foo_resolver
             Samples.page_load)
  = inr (OutProps (final_props (Some "alice")
                     (Some (PlainProps {[ "foo" := 1%Z ]})) (Some 1)))
  /\ final_props (Some "alice") (Some (PlainProps {[ "foo" := 1%Z ]})) (Some 1)
       !! "session"
     = Some (SessionValue (Some "alice")).
Proof.
  split; [reflexivity |].
  exact (proj2 (proj2 (proj2 (proj2
           (session_rule Samples.ssg_once Samples.foo_resolver
              Samples.page_load))))
           Samples.page_load_args _ _
           (page_load_reaches_resolver _) eq_refl eq_refl eq_refl).
Defined.

Lemma void_result_yields_session_props_witness :
  exists p,
    outcome (createServerSideProps Samples.ssg_once Samples.void_resolver
               Samples.page_load) = inr (OutProps p)
    /\ p !! "session" = Some (SessionValue (Some "alice"))
    /\ p !! "trpcState" = Some (TrpcStateValue "snapshot").
Proof.
  destruct (void_result_yields_session_props Samples.ssg_once
              Samples.void_resolver Samples.page_load Samples.page_load_args
              (page_load_reaches_resolver _) eq_refl)
    as (p & Hout & Hsess & Htrpc & _).
  exists p. split; [exact Hout |]. split; [exact Hsess | exact Htrpc].
Defined.

End BuilderExamples.

(** ** The article sitemap *)

Section SitemapFacts.

Import SitemapArticles.

Context {Ctx DateT Failure Result : Type}
        (getArticles : GetArticlesInput -> Failure + ArticlesPage DateT)
        (getBaseUrl : unit -> string)
        (slugit : string -> string)
        (toISOString : DateT -> string)
        (now : DateT)
        (number_to_string : Z -> string)
        (getServerSideSitemapLegacy :
           Ctx -> list ISitemapField -> Failure + Result).

(** The one query the handler sends. *)
Lemma getServerSideProps_query context :
  getServerSideProps getArticles getBaseUrl slugit toISOString now
    number_to_string getServerSideSitemapLegacy context
  = getServerSideSitemapLegacy context
      (map (article_field getBaseUrl slugit toISOString now number_to_string)
         (items (catch (getArticles {| browsingMode := SFW; limit := 1000;
                                       period := AllTime;
                                       sort := MostBookmarks;
                                       periodMode := published |})
                       (fun _ => {| items := [] |})))).
Proof. reflexivity. Qed.

(** When the query succeeds there is one sitemap entry per article. *)
Lemma getServerSideProps_entries context page :
  getArticles {| browsingMode := SFW; limit := 1000; period := AllTime;
                 sort := MostBookmarks; periodMode := published |}
    = inr page ->
  exists fields,
    getServerSideProps getArticles getBaseUrl slugit toISOString now
      number_to_string getServerSideSitemapLegacy context
    = getServerSideSitemapLegacy context fields
    /\ length fields = length (items page).
Proof.
  intros Hq. rewrite getServerSideProps_query, Hq. simpl.
  eexists. split; [reflexivity |]. apply length_map.
Qed.

(** C10: when the articles query rejects, the failure does not propagate:
    the handler carries on with an empty item list, and its result is what
    the sitemap writer produces for zero entries. *)
Theorem getServerSideProps_query_failure context (e : Failure) :
  getArticles {| browsingMode := SFW; limit := 1000; period := AllTime;
                 sort := MostBookmarks; periodMode := published |}
    = inl e ->
  getServerSideProps getArticles getBaseUrl slugit toISOString now
    number_to_string getServerSideSitemapLegacy context
  = getServerSideSitemapLegacy context [].
Proof.
  intros Hq. rewrite getServerSideProps_query, Hq. reflexivity.
Qed.

End SitemapFacts.

Lemma getServerSideProps_query_failure_witness :
  SitemapArticles.getServerSideProps
    (fun _ => inl "connection refused")
    (fun _ => "https://example.org") (fun t => t) (fun d : string => d)
    "2024-01-01T00:00:00.000Z" (fun _ => "0")
    (fun (_ : unit) fields => inr (length fields)) tt
  = inr 0.
Proof.
  exact (getServerSideProps_query_failure
           (Failure := string) (Result := nat)
           (fun _ => inl "connection refused")
           (fun _ => "https://example.org") (fun t => t) (fun d : string => d)
           "2024-01-01T00:00:00.000Z" (fun _ => "0")
           (fun (_ : unit) fields => inr (length fields)) tt
           "connection refused" eq_refl).
Defined.

(** * Further properties *)

(** ** The review widgets *)

(** X1: a click on the link or on Cancel flips the editor and leaves the form
    and the mutation log alone; a focus timer is scheduled exactly by the
    click that opens the editor, so a click pair restores the editor and
    schedules one timer. *)
Theorem onClick_toggle_twice (st : V1.State) :
  V1.editDetail (V1.onClick_toggle st) = negb (V1.editDetail st)
  /\ V1.focusTimers (V1.onClick_toggle st)
     = (if V1.editDetail st then V1.focusTimers st
        else S (V1.focusTimers st))
  /\ V1.editDetail (V1.onClick_toggle (V1.onClick_toggle st))
     = V1.editDetail st
  /\ V1.form (V1.onClick_toggle (V1.onClick_toggle st)) = V1.form st
  /\ V1.calls (V1.onClick_toggle (V1.onClick_toggle st)) = V1.calls st
  /\ V1.focusTimers (V1.onClick_toggle (V1.onClick_toggle st))
     = S (V1.focusTimers st).
Proof.
  destruct st as [e f c t]. unfold V1.onClick_toggle, V1.toggleEditDetail.
  destruct e; simpl; repeat split.
Qed.

(** X2: without a review entity, a form submission and [save()] issue no
    mutation call and change nothing, dirty or not, in both variants. *)
Theorem save_without_review :
  (forall (p : V1.Props) (st : V1.State),
     V1.resourceReview p = None ->
     V1.Form_onSubmit p st = st /\ V1.save p st = st)
  /\ (forall (p : V2.Props) (st : V2.State),
        V2.userReview p = None ->
        V2.Form_onSubmit p st = st /\ V2.save p st = st).
Proof.
  split; intros p st Hp.
  - unfold V1.save, V1.Form_onSubmit, Form.handleSubmit, V1.handleSubmit.
    rewrite (updateReview_no_review_V1 _ _ _ _ Hp). now destruct (Form.isDirty _).
  - unfold V2.save, V2.Form_onSubmit, Form.handleSubmit, V2.handleSubmit.
    rewrite (updateReview_no_review_V2 _ _ _ _ Hp). now destruct (Form.isDirty _).
Qed.

Lemma save_without_review_witness :
  V1.resourceReview Samples.no_review = None
  /\ Form.isDirty
       (V1.form (V1.type_details "great" (V1.mount Samples.no_review))) = true
  /\ V1.save Samples.no_review
       (V1.type_details "great" (V1.mount Samples.no_review))
     = V1.type_details "great" (V1.mount Samples.no_review).
Proof.
  split; [reflexivity |]. split; [reflexivity |].
  exact (proj2 (proj1 save_without_review Samples.no_review
                  (V1.type_details "great" (V1.mount Samples.no_review))
                  eq_refl)).
Defined.

(** X3: a rating change always issues exactly one mutation call, never none:
    a create call carrying the rating when [resourceReview?.id] is falsy,
    otherwise an update call carrying the entity's id and the rating only.
    It never touches the form, the editor or the focus timers. *)
Theorem handleRatingChange_one_call (p : V1.Props) (r : Z) (st : V1.State) :
  exists c,
    V1.handleRatingChange p r st = V1.mutate c st
    /\ V1.calls (V1.handleRatingChange p r st) = (V1.calls st ++ [c])%list
    /\ match c with
       | CreateCall payload =>
           JS.truthy_opt JS.truthy_number (optional_id (V1.resourceReview p))
             = false
           /\ c_rating payload = r
       | UpdateCall payload =>
           (exists rr, V1.resourceReview p = Some rr
                       /\ rr_id rr <> 0%Z /\ u_id payload = rr_id rr)
           /\ u_rating payload = Some r
           /\ u_details payload = None
       end.
Proof.
  unfold V1.handleRatingChange, V1.updateReview.
  destruct (V1.resourceReview p) as [rr |] eqn:Hp; simpl.
  - destruct (JS.truthy_number (rr_id rr)) eqn:Hid; simpl.
    + eexists. split; [reflexivity |]. split; [reflexivity |]. simpl.
      split; [| split; reflexivity].
      exists rr. split; [reflexivity |]. split; [| reflexivity].
      now apply truthy_number_nonzero.
    + eexists. split; [reflexivity |]. split; [reflexivity |]. simpl.
      split; reflexivity.
  - eexists. split; [reflexivity |]. split; [reflexivity |]. simpl.
    split; reflexivity.
Qed.

(** X4: a comment is not saved twice.  When the review exists and the form is
    dirty with a non-empty value, [save()] issues one update call; once that
    call succeeds the form is reset to the submitted value, so whatever the
    viewer typed while the call was in flight is discarded, the form is
    clean, and another [save()] issues nothing.  In both variants. *)
Theorem no_double_save :
  (forall (p : V1.Props) (rr : ResourceReviewModel) (st : V1.State)
          (typed : string) (rendered : bool),
     V1.resourceReview p = Some rr ->
     Form.isDirty (V1.form st) = true ->
     Form.values (V1.form st) <> "" ->
     V1.calls (V1.save p st)
       = (V1.calls st
          ++ [UpdateCall {| u_id := rr_id rr; u_rating := None;
                            u_details := Some (Form.values (V1.form st)) |}])%list
     /\ V1.form (V1.updateReview_onSuccess rendered
                   {| u_id := rr_id rr; u_rating := None;
                      u_details := Some (Form.values (V1.form st)) |}
                   (V1.type_details typed (V1.save p st)))
        = {| Form.values := Form.values (V1.form st);
             Form.baseline := Form.values (V1.form st) |}
     /\ V1.save p (V1.updateReview_onSuccess rendered
                     {| u_id := rr_id rr; u_rating := None;
                        u_details := Some (Form.values (V1.form st)) |}
                     (V1.type_details typed (V1.save p st)))
        = V1.updateReview_onSuccess rendered
            {| u_id := rr_id rr; u_rating := None;
               u_details := Some (Form.values (V1.form st)) |}
            (V1.type_details typed (V1.save p st)))
  /\
  (forall (p : V2.Props) (rr : ResourceReviewModel) (st : V2.State)
          (typed : string),
     V2.userReview p = Some rr ->
     Form.isDirty (V2.form st) = true ->
     Form.values (V2.form st) <> "" ->
     V2.calls (V2.save p st)
       = (V2.calls st
          ++ [UpdateCall {| u_id := rr_id rr; u_rating := None;
                            u_details := Some (Form.values (V2.form st)) |}])%list
     /\ V2.form (V2.updateReview_onSuccess
                   {| u_id := rr_id rr; u_rating := None;
                      u_details := Some (Form.values (V2.form st)) |}
                   (V2.type_details typed (V2.save p st)))
        = {| Form.values := Form.values (V2.form st);
             Form.baseline := Form.values (V2.form st) |}
     /\ V2.save p (V2.updateReview_onSuccess
                     {| u_id := rr_id rr; u_rating := None;
                        u_details := Some (Form.values (V2.form st)) |}
                     (V2.type_details typed (V2.save p st)))
        = V2.updateReview_onSuccess
            {| u_id := rr_id rr; u_rating := None;
               u_details := Some (Form.values (V2.form st)) |}
            (V2.type_details typed (V2.save p st))).
Proof.
  split.
  - intros p rr st typed rendered Hp Hdirty Hne.
    apply truthy_string_nonempty in Hne.
    split; [| split].
    + unfold V1.save, Form.handleSubmit, V1.handleSubmit, V1.updateReview.
      now rewrite Hdirty, Hp.
    + unfold V1.updateReview_onSuccess. simpl. now rewrite Hne.
    + unfold V1.save at 1.
      assert (Hclean : Form.isDirty
                (V1.form (V1.updateReview_onSuccess rendered
                   {| u_id := rr_id rr; u_rating := None;
                      u_details := Some (Form.values (V1.form st)) |}
                   (V1.type_details typed (V1.save p st)))) = false).
      { unfold V1.updateReview_onSuccess. simpl. rewrite Hne. simpl.
        apply isDirty_reset. }
      now rewrite Hclean.
  - intros p rr st typed Hp Hdirty Hne.
    apply truthy_string_nonempty in Hne.
    split; [| split].
    + unfold V2.save, Form.handleSubmit, V2.handleSubmit, V2.updateReview.
      now rewrite Hdirty, Hp.
    + unfold V2.updateReview_onSuccess. simpl. now rewrite Hne.
    + unfold V2.save at 1.
      assert (Hclean : Form.isDirty
                (V2.form (V2.updateReview_onSuccess
                   {| u_id := rr_id rr; u_rating := None;
                      u_details := Some (Form.values (V2.form st)) |}
                   (V2.type_details typed (V2.save p st)))) = false).
      { unfold V2.updateReview_onSuccess. simpl. rewrite Hne. simpl.
        apply isDirty_reset. }
      now rewrite Hclean.
Qed.

Lemma no_double_save_witness :
  V1.resourceReview (Samples.props_of Samples.nice_review)
    = Some Samples.nice_review
  /\ Form.isDirty (V1.form Samples.typing) = true
  /\ Form.values (V1.form Samples.typing) <> ""
  /\ V1.form (V1.updateReview_onSuccess true
                {| u_id := 7; u_rating := None; u_details := Some "great" |}
                (V1.type_details "great!!"
                   (V1.save (Samples.props_of Samples.nice_review)
                      Samples.typing)))
     = {| Form.values := "great"; Form.baseline := "great" |}.
Proof.
  assert (Hne : Form.values (V1.form Samples.typing) <> "") by discriminate.
  split; [reflexivity |]. split; [reflexivity |]. split; [exact Hne |].
  exact (proj1 (proj2 (proj1 no_double_save
                         (Samples.props_of Samples.nice_review)
                         Samples.nice_review Samples.typing "great!!" true
                         eq_refl eq_refl Hne))).
Defined.

(** X5: clearing the comment is saved again.  When the review exists and the
    pending value is the empty string, the success callback of the update
    does nothing (the editor is not flipped, the form stays dirty), so a
    second [save()] issues the same update call once more.  In both
    variants. *)
Theorem empty_details_saved_again :
  (forall (p : V1.Props) (rr : ResourceReviewModel) (st : V1.State)
          (rendered : bool),
     V1.resourceReview p = Some rr ->
     Form.isDirty (V1.form st) = true ->
     Form.values (V1.form st) = "" ->
     V1.updateReview_onSuccess rendered
       {| u_id := rr_id rr; u_rating := None; u_details := Some "" |}
       (V1.save p st)
     = V1.save p st
     /\ V1.calls (V1.save p
                    (V1.updateReview_onSuccess rendered
                       {| u_id := rr_id rr; u_rating := None;
                          u_details := Some "" |}
                       (V1.save p st)))
        = (V1.calls st
           ++ [UpdateCall {| u_id := rr_id rr; u_rating := None;
                             u_details := Some "" |};
               UpdateCall {| u_id := rr_id rr; u_rating := None;
                             u_details := Some "" |}])%list)
  /\
  (forall (p : V2.Props) (rr : ResourceReviewModel) (st : V2.State),
     V2.userReview p = Some rr ->
     Form.isDirty (V2.form st) = true ->
     Form.values (V2.form st) = "" ->
     V2.updateReview_onSuccess
       {| u_id := rr_id rr; u_rating := None; u_details := Some "" |}
       (V2.save p st)
     = V2.save p st
     /\ V2.calls (V2.save p
                    (V2.updateReview_onSuccess
                       {| u_id := rr_id rr; u_rating := None;
                          u_details := Some "" |}
                       (V2.save p st)))
        = (V2.calls st
           ++ [UpdateCall {| u_id := rr_id rr; u_rating := None;
                             u_details := Some "" |};
               UpdateCall {| u_id := rr_id rr; u_rating := None;
                             u_details := Some "" |}])%list).
Proof.
  split.
  - intros p rr st rendered Hp Hdirty Hempty.
    rewrite onSuccess_falsy_details_V1 by reflexivity.
    split; [reflexivity |].
    unfold V1.save, Form.handleSubmit, V1.handleSubmit, V1.updateReview.
    rewrite Hdirty, Hp. simpl. rewrite Hdirty, Hempty. simpl.
    now rewrite <- app_assoc.
  - intros p rr st Hp Hdirty Hempty.
    rewrite onSuccess_falsy_details_V2 by reflexivity.
    split; [reflexivity |].
    unfold V2.save, Form.handleSubmit, V2.handleSubmit, V2.updateReview.
    rewrite Hdirty, Hp. simpl. rewrite Hdirty, Hempty. simpl.
    now rewrite <- app_assoc.
Qed.

Lemma empty_details_saved_again_witness :
  V1.resourceReview (Samples.props_of Samples.nice_review)
    = Some Samples.nice_review
  /\ Form.isDirty
       (V1.form (V1.type_details ""
                   (V1.mount (Samples.props_of Samples.nice_review)))) = true
  /\ V1.calls
       (V1.save (Samples.props_of Samples.nice_review)
          (V1.updateReview_onSuccess false
             {| u_id := 7; u_rating := None; u_details := Some "" |}
             (V1.save (Samples.props_of Samples.nice_review)
                (V1.type_details ""
                   (V1.mount (Samples.props_of Samples.nice_review))))))
     = [UpdateCall {| u_id := 7; u_rating := None; u_details := Some "" |};
        UpdateCall {| u_id := 7; u_rating := None; u_details := Some "" |}].
Proof.
  split; [reflexivity |]. split; [reflexivity |].
  exact (proj2 (proj1 empty_details_saved_again
                  (Samples.props_of Samples.nice_review) Samples.nice_review
                  (V1.type_details ""
                     (V1.mount (Samples.props_of Samples.nice_review)))
                  false eq_refl eq_refl eq_refl)).
Defined.

(** X6: Cancel in the second variant discards the pending edit: the form is
    reset to the entity's details (or the empty string), the editor is
    flipped, no mutation call is issued, and a [save()] that follows does
    nothing. *)
Theorem handleCancel_discards_edit (p : V2.Props) (st : V2.State) :
  V2.form (V2.handleCancel p st)
    = {| Form.values := details_or_empty (V2.userReview p);
         Form.baseline := details_or_empty (V2.userReview p) |}
  /\ V2.opened (V2.handleCancel p st) = negb (V2.opened st)
  /\ V2.calls (V2.handleCancel p st) = V2.calls st
  /\ V2.save p (V2.handleCancel p st) = V2.handleCancel p st.
Proof.
  repeat split. unfold V2.save.
  assert (Hclean : Form.isDirty (V2.form (V2.handleCancel p st)) = false)
    by apply isDirty_reset.
  now rewrite Hclean.
Qed.

(** X7: Cancel in the first variant only closes the editor: the pending edit
    stays in the form, so when the review exists and the form is dirty, a
    [save()] after Cancel still issues the update call with the pending
    value. *)
Theorem cancel_keeps_edit (p : V1.Props) (rr : ResourceReviewModel)
    (st : V1.State) :
  V1.resourceReview p = Some rr ->
  Form.isDirty (V1.form st) = true ->
  V1.form (V1.onClick_toggle st) = V1.form st
  /\ V1.calls (V1.save p (V1.onClick_toggle st))
     = (V1.calls st
        ++ [UpdateCall {| u_id := rr_id rr; u_rating := None;
                          u_details := Some (Form.values (V1.form st)) |}])%list.
Proof.
  intros Hp Hdirty.
  destruct (toggleEditDetail_frame (V1.editDetail st) st) as (Hf & Hc & _).
  fold (V1.onClick_toggle st) in Hf, Hc.
  split; [exact Hf |].
  unfold V1.save, Form.handleSubmit, V1.handleSubmit, V1.updateReview.
  rewrite Hf, Hdirty, Hp. simpl. now rewrite Hc.
Qed.

Lemma cancel_keeps_edit_witness :
  V1.resourceReview (Samples.props_of Samples.nice_review)
    = Some Samples.nice_review
  /\ Form.isDirty (V1.form Samples.typing) = true
  /\ V1.calls (V1.save (Samples.props_of Samples.nice_review)
                 (V1.onClick_toggle Samples.typing))
     = [UpdateCall {| u_id := 7; u_rating := None;
                      u_details := Some "great" |}].
Proof.
  split; [reflexivity |]. split; [reflexivity |].
  exact (proj2 (cancel_keeps_edit (Samples.props_of Samples.nice_review)
                  Samples.nice_review Samples.typing eq_refl eq_refl)).
Defined.

(** X8: the success of a rating-only update leaves the widget alone: when the
    review has a truthy id, the update call a rating change issues carries no
    details, and its success callback neither flips the editor nor resets
    the form, so a pending comment survives. *)
Theorem rating_success_keeps_state (p : V1.Props) (rr : ResourceReviewModel)
    (st : V1.State) (r : Z) (rendered : bool) :
  V1.resourceReview p = Some rr ->
  rr_id rr <> 0%Z ->
  V1.calls (V1.handleRatingChange p r st)
    = (V1.calls st
       ++ [UpdateCall {| u_id := rr_id rr; u_rating := Some r;
                         u_details := None |}])%list
  /\ V1.updateReview_onSuccess rendered
       {| u_id := rr_id rr; u_rating := Some r; u_details := None |}
       (V1.handleRatingChange p r st)
     = V1.handleRatingChange p r st
  /\ V1.form (V1.updateReview_onSuccess rendered
                {| u_id := rr_id rr; u_rating := Some r; u_details := None |}
                (V1.handleRatingChange p r st))
     = V1.form st
  /\ V1.editDetail (V1.updateReview_onSuccess rendered
                      {| u_id := rr_id rr; u_rating := Some r;
                         u_details := None |}
                      (V1.handleRatingChange p r st))
     = V1.editDetail st.
Proof.
  intros Hp Hid. apply truthy_number_nonzero in Hid.
  rewrite onSuccess_falsy_details_V1 by reflexivity.
  unfold V1.handleRatingChange, V1.updateReview.
  rewrite Hp. simpl. rewrite Hid. simpl. repeat split.
Qed.

Lemma rating_success_keeps_state_witness :
  V1.resourceReview (Samples.props_of Samples.nice_review)
    = Some Samples.nice_review
  /\ rr_id Samples.nice_review <> 0%Z
  /\ V1.form (V1.updateReview_onSuccess true
                {| u_id := 7; u_rating := Some 5%Z; u_details := None |}
                (V1.handleRatingChange (Samples.props_of Samples.nice_review)
                   5 Samples.typing))
     = V1.form Samples.typing.
Proof.
  assert (Hid : rr_id Samples.nice_review <> 0%Z) by (simpl; lia).
  split; [reflexivity |]. split; [exact Hid |].
  exact (proj1 (proj2 (proj2 (rating_success_keeps_state
                  (Samples.props_of Samples.nice_review) Samples.nice_review
                  Samples.typing 5 true eq_refl Hid)))).
Defined.

(** ** What the widgets render *)



(** X10: both widgets word the link alike: ['Edit'] exactly when the entity's
    details is a non-empty string, ['Add'] when it is [null] or empty; the
    second widget renders nothing at all without a review. *)
Theorem label_edit_iff_comment (rr : ResourceReviewModel)
    (modelVersionId : Z) (showReviewedAt : bool) (st : V2.State)
    (isLoading loadingUserReview : bool) :
  (ReviewView.link_label rr = ReviewView.Edit
   <-> exists d, rr_details rr = Some d /\ d <> "")
  /\ (exists v,
        ReviewView.renderV2
          {| V2.userReview := Some rr; V2.modelVersionId := modelVersionId |}
          showReviewedAt st isLoading loadingUserReview = Some v
        /\ ReviewView.label v = ReviewView.link_label rr)
  /\ ReviewView.renderV2
       {| V2.userReview := None; V2.modelVersionId := modelVersionId |}
       showReviewedAt st isLoading loadingUserReview = None.
Proof.
  unfold ReviewView.link_label, ReviewView.renderV2, ReviewView.hasComment.
  simpl. split; [| split; [| reflexivity]].
  - destruct (rr_details rr) as [d |]; simpl.
    + destruct (JS.truthy_string d) eqn:Hd; simpl.
      * split; [intros _ | reflexivity].
        exists d. split; [reflexivity | now apply truthy_string_nonempty].
      * split; [discriminate |]. intros (d' & Hd' & Hne).
        injection Hd' as <-. apply truthy_string_nonempty in Hne. congruence.
    + split; [discriminate | intros (d & Hd & _); discriminate].
  - eexists. split; [reflexivity |]. simpl.
    now destruct (JS.truthy_opt JS.truthy_string (rr_details rr)).
Qed.

(** X11: in the second widget, when the review exists and the editor is
    open, the Save button is disabled exactly when [save()] would do
    nothing. *)
Theorem save_disabled_iff_noop (p : V2.Props) (rr : ResourceReviewModel)
    (showReviewedAt : bool) (st : V2.State)
    (isLoading loadingUserReview : bool) :
  V2.userReview p = Some rr ->
  V2.opened st = true ->
  exists v b,
    ReviewView.renderV2 p showReviewedAt st isLoading loadingUserReview
      = Some v
    /\ ReviewView.save_button v = Some b
    /\ (ReviewView.disabled b = true <-> V2.save p st = st).
Proof.
  intros Hp Hopen. unfold ReviewView.renderV2. rewrite Hp, Hopen.
  do 2 eexists. split; [reflexivity |]. split; [reflexivity |]. simpl.
  unfold V2.save, Form.handleSubmit, V2.handleSubmit, V2.updateReview.
  rewrite Hp.
  destruct (Form.isDirty (V2.form st)); simpl; split; try reflexivity;
    try discriminate.
  intros Heq. apply (f_equal V2.calls) in Heq. simpl in Heq.
  apply (f_equal (@length _)) in Heq. rewrite length_app in Heq.
  simpl in Heq. lia.
Qed.

Lemma save_disabled_iff_noop_witness :
  V2.userReview (Samples.propsV2_of Samples.nice_review)
    = Some Samples.nice_review
  /\ V2.opened Samples.typingV2 = true
  /\ exists v b,
       ReviewView.renderV2 (Samples.propsV2_of Samples.nice_review) true
         Samples.typingV2 false false = Some v
       /\ ReviewView.save_button v = Some b
       /\ (ReviewView.disabled b = true
           <-> V2.save (Samples.propsV2_of Samples.nice_review)
                 Samples.typingV2 = Samples.typingV2).
Proof.
  split; [reflexivity |]. split; [reflexivity |].
  exact (save_disabled_iff_noop (Samples.propsV2_of Samples.nice_review)
           Samples.nice_review true Samples.typingV2 false false
           eq_refl eq_refl).
Defined.

(** ** More on the server-side props builder *)

Section BuilderMore.

Import ServerSideHelpers BuilderLog.
Context `{Collaborators}.

Lemma session_lookups_app (t1 t2 : list Event) :
  session_lookups (t1 ++ t2) = session_lookups t1 + session_lookups t2.
Proof.
  unfold session_lookups. now rewrite List.filter_app, length_app.
Qed.

Lemma resolver_calls_app (t1 t2 : list Event) :
  resolver_calls (t1 ++ t2) = resolver_calls t1 + resolver_calls t2.
Proof.
  unfold resolver_calls. now rewrite List.filter_app, length_app.
Qed.

(** The log of session resolution, read off the request and the options. *)
Lemma resolve_session_trace_eq o context :
  trace (resolve_session o context)
  = if match req_session context with Some _ => false | None => true end
       && JS.nullish (useSession o) false
    then [EvGetServerAuthSession]
    else [].
Proof.
  unfold resolve_session.
  destruct (req_session context); [reflexivity |].
  now destruct (JS.nullish (useSession o) false).
Qed.

(** Split the handler's log and outcome along the steps of the handler. *)
Ltac handler_steps o c :=
  let s := fresh "s" in
  let f := fresh "f" in
  rewrite ?createServerSideProps_trace, ?createServerSideProps_outcome;
  rewrite ?resolve_session_trace_eq;
  destruct (match req_session c with Some _ => false | None => true end
            && JS.nullish (useSession o) false);
  (destruct (outcome (resolve_session o c)) as [? | s];
   [ | destruct (getFeatureFlagsLazy_ext (optional_user s) (req_rest c))
         as [? | f];
       [ | rewrite ?build_ssg_trace, ?build_ssg_outcome;
           destruct (wants_ssg o (is_client c));
           [ destruct (createServerSideHelpers_ext (optional_user s) f) | ] ] ]).

(** X12: the handler calls its collaborators in the order of its text,
    session resolver, feature flags, prefetch helpers, page resolver, and
    each of them at most once, whatever fails on the way. *)
Theorem collaborators_called_in_order o resolver context :
  StronglySorted lt
    (map rank (trace (createServerSideProps o resolver context)))
  /\ session_lookups (trace (createServerSideProps o resolver context)) <= 1
  /\ helpers_built (trace (createServerSideProps o resolver context)) <= 1
  /\ resolver_calls (trace (createServerSideProps o resolver context)) <= 1.
Proof.
  handler_steps o constr:(context); simpl;
    (split; [repeat constructor | unfold session_lookups, helpers_built,
                                    resolver_calls; simpl; lia]).
Qed.

(** X13: a failure before the page resolver is the handler's failure, and
    the steps after it are not run.  A rejected session lookup stops the
    handler right there; failed feature flags stop it before any prefetch
    context is built; a failed prefetch construction stops it before the
    resolver is invoked. *)
Theorem early_failure_stops_handler o resolver context :
  (forall e,
     outcome (resolve_session o context) = inl e ->
     outcome (createServerSideProps o resolver context) = inl e
     /\ trace (createServerSideProps o resolver context)
        = [EvGetServerAuthSession])
  /\ (forall s e,
        outcome (resolve_session o context) = inr s ->
        getFeatureFlagsLazy_ext (optional_user s) (req_rest context) = inl e ->
        outcome (createServerSideProps o resolver context) = inl e
        /\ helpers_built (trace (createServerSideProps o resolver context)) = 0
        /\ resolver_calls (trace (createServerSideProps o resolver context))
           = 0)
  /\ (forall s f e,
        outcome (resolve_session o context) = inr s ->
        getFeatureFlagsLazy_ext (optional_user s) (req_rest context) = inr f ->
        useSSG o = Some true ->
        (prefetch o = Some always \/ is_client context = false) ->
        createServerSideHelpers_ext (optional_user s) f = inl e ->
        outcome (createServerSideProps o resolver context) = inl e
        /\ resolver_calls (trace (createServerSideProps o resolver context))
           = 0).
Proof.
  split; [| split].
  - intros e He.
    rewrite createServerSideProps_trace, createServerSideProps_outcome, He.
    split; [reflexivity |]. rewrite app_nil_r.
    revert He. unfold resolve_session.
    destruct (req_session context); [discriminate |].
    destruct (JS.nullish (useSession o) false); [reflexivity | discriminate].
  - intros s e Hs Hf.
    rewrite createServerSideProps_trace, createServerSideProps_outcome, Hs, Hf.
    split; [reflexivity |].
    rewrite helpers_built_app, resolver_calls_app, resolve_session_trace_eq.
    destruct (_ && _); split; reflexivity.
  - intros s f e Hs Hf Hssg Hpre He.
    assert (Hwants : wants_ssg o (is_client context) = true).
    { unfold wants_ssg. rewrite Hssg. simpl.
      destruct Hpre as [-> | ->]; [reflexivity | apply orb_true_r]. }
    rewrite createServerSideProps_trace, createServerSideProps_outcome, Hs, Hf.
    rewrite build_ssg_trace, build_ssg_outcome, Hwants, He.
    split; [reflexivity |].
    rewrite resolver_calls_app, resolve_session_trace_eq.
    destruct (_ && _); reflexivity.
Qed.

(** X14: the handler neither swallows nor invents an outcome of the page
    resolver.  When the invoked resolver fails, the handler fails with the
    same failure; and whenever the handler succeeds, the resolver was
    invoked exactly once, for this request, and the output is the reading of
    what it returned. *)
Theorem outcome_is_resolvers o resolver context :
  (forall args e,
     In (EvResolver args) (trace (createServerSideProps o resolver context)) ->
     resolver args = inl e ->
     outcome (createServerSideProps o resolver context) = inl e)
  /\ (forall out,
        outcome (createServerSideProps o resolver context) = inr out ->
        exists args result,
          In (EvResolver args)
             (trace (createServerSideProps o resolver context))
          /\ resolver_calls (trace (createServerSideProps o resolver context))
             = 1
          /\ ctx args = context
          /\ isClient args = is_client context
          /\ resolver args = inr result
          /\ out = interpret (session args) (ssg args) result).
Proof.
  split.
  - intros args e Hin He.
    destruct (resolver_invoked _ _ _ _ Hin) as (_ & _ & _ & _ & _ & Hout).
    now rewrite He in Hout.
  - intros out Hout.
    rewrite createServerSideProps_outcome in Hout.
    destruct (outcome (resolve_session o context)) as [e | s] eqn:Hs;
      [discriminate |].
    destruct (getFeatureFlagsLazy_ext (optional_user s) (req_rest context))
      as [e | f] eqn:Hf; [discriminate |].
    destruct (outcome (build_ssg o context (is_client context) s f))
      as [e | h] eqn:Hh; [discriminate |].
    destruct (resolver _) as [e | result] eqn:Hr; [discriminate |].
    injection Hout as <-.
    eexists. exists result.
    split; [exact (resolver_reached o resolver context s f h Hs Hf Hh) |].
    split; [| repeat split; exact Hr].
    rewrite createServerSideProps_trace, Hs, Hf, Hh.
    rewrite build_ssg_trace, resolver_calls_app, resolve_session_trace_eq.
    destruct (_ && _); destruct (wants_ssg o (is_client context)); reflexivity.
Qed.

(** X15: the session resolver is called exactly when no session is attached
    to the request and [useSession] is set, and then once; a session put on
    the request by middleware is never looked up again. *)
Theorem session_lookup_count o resolver context :
  session_lookups (trace (createServerSideProps o resolver context))
  = match req_session context, useSession o with
    | None, Some true => 1
    | _, _ => 0
    end.
Proof.
  rewrite createServerSideProps_trace, session_lookups_app.
  match goal with
  | |- _ + session_lookups ?rest = _ =>
      assert (Hrest : session_lookups rest = 0)
  end.
  { destruct (outcome (resolve_session o context)) as [e | s]; [reflexivity |].
    destruct (getFeatureFlagsLazy_ext (optional_user s) (req_rest context))
      as [e | f]; [reflexivity |].
    rewrite build_ssg_trace, build_ssg_outcome.
    destruct (wants_ssg o (is_client context)); [| reflexivity].
    now destruct (createServerSideHelpers_ext (optional_user s) f). }
  rewrite Hrest, resolve_session_trace_eq.
  destruct (req_session context); [reflexivity |].
  destruct (useSession o) as [[] |]; reflexivity.
Qed.

(** X16: without [useSSG] (omitted or false) no prefetch context is ever
    built, whatever [prefetch] says and whether or not the request is a soft
    navigation, and an invoked resolver receives none. *)
Theorem no_useSSG_no_prefetch o resolver context :
  useSSG o <> Some true ->
  helpers_built (trace (createServerSideProps o resolver context)) = 0
  /\ forall args,
       In (EvResolver args) (trace (createServerSideProps o resolver context))
       -> ssg args = None.
Proof.
  intros Hssg.
  assert (Hwants : forall client, wants_ssg o client = false).
  { intros client. unfold wants_ssg.
    destruct (useSSG o) as [[] |]; [congruence | reflexivity | reflexivity]. }
  split.
  - rewrite createServerSideProps_trace, helpers_built_app,
      resolve_session_trace_eq.
    assert (H0 : forall b : bool,
               helpers_built (if b then [EvGetServerAuthSession] else []) = 0)
      by (intros []; reflexivity).
    rewrite H0.
    destruct (outcome (resolve_session o context)) as [e | s]; [reflexivity |].
    destruct (getFeatureFlagsLazy_ext (optional_user s) (req_rest context))
      as [e | f]; [reflexivity |].
    now rewrite build_ssg_trace, build_ssg_outcome, Hwants.
  - intros args Hin.
    destruct (resolver_invoked _ _ _ _ Hin) as (_ & _ & _ & _ & Hh & _).
    rewrite build_ssg_outcome, Hwants in Hh. congruence.
Qed.

(** X17: with [useSSG] set, a request that is not a soft navigation gets a
    prefetch context whatever [prefetch] is: once the session and the
    feature flags are resolved exactly one is constructed, and an invoked
    resolver receives it. *)
Theorem full_load_builds_prefetch o resolver context s f :
  useSSG o = Some true ->
  is_client context = false ->
  outcome (resolve_session o context) = inr s ->
  getFeatureFlagsLazy_ext (optional_user s) (req_rest context) = inr f ->
  helpers_built (trace (createServerSideProps o resolver context)) = 1
  /\ forall args,
       In (EvResolver args) (trace (createServerSideProps o resolver context))
       -> exists h,
            createServerSideHelpers_ext (optional_user s) f = inr h
            /\ ssg args = Some h.
Proof.
  intros Hssg Hclient Hs Hf.
  assert (Hwants : wants_ssg o false = true).
  { unfold wants_ssg. rewrite Hssg. simpl. apply orb_true_r. }
  split.
  - rewrite createServerSideProps_trace, helpers_built_app,
      resolve_session_trace_eq, Hs, Hf.
    assert (H0 : forall b : bool,
               helpers_built (if b then [EvGetServerAuthSession] else []) = 0)
      by (intros []; reflexivity).
    rewrite H0, build_ssg_trace, build_ssg_outcome, Hclient, Hwants.
    now destruct (createServerSideHelpers_ext (optional_user s) f).
  - intros args Hin.
    destruct (resolver_invoked _ _ _ _ Hin) as (_ & _ & Hs' & Hf' & Hh & _).
    rewrite Hs in Hs'. injection Hs' as Hs'. rewrite <- Hs' in Hf', Hh.
    rewrite Hf in Hf'. injection Hf' as Hf'. rewrite <- Hf' in Hh.
    rewrite build_ssg_outcome, Hclient, Hwants in Hh.
    destruct (createServerSideHelpers_ext (optional_user s) f) as [e | h];
      [discriminate |].
    exists h. split; [reflexivity | congruence].
Qed.

(** X18: the prefetch context is built for the same user the feature flags
    were resolved for, the user of the session the handler settled on: a
    helpers call in the log is preceded by a feature-flag call for the same
    user, and an invoked resolver receives the session of that user. *)
Theorem prefetch_for_flag_user o resolver context user :
  In (EvCreateServerSideHelpers user)
     (trace (createServerSideProps o resolver context)) ->
  In (EvGetFeatureFlagsLazy user)
     (trace (createServerSideProps o resolver context))
  /\ (exists s, outcome (resolve_session o context) = inr s
                /\ user = optional_user s)
  /\ forall args,
       In (EvResolver args) (trace (createServerSideProps o resolver context))
       -> user = optional_user (session args).
Proof.
  intros Hin.
  assert (Huser : exists s, outcome (resolve_session o context) = inr s
                            /\ user = optional_user s).
  { rewrite createServerSideProps_trace, resolve_session_trace_eq in Hin.
    apply in_app_or in Hin. destruct Hin as [Hin | Hin].
    { destruct (_ && _); simpl in Hin; intuition discriminate. }
    destruct (outcome (resolve_session o context)) as [e | s]; [easy |].
    exists s. split; [reflexivity |].
    destruct Hin as [Hin | Hin]; [discriminate |].
    destruct (getFeatureFlagsLazy_ext (optional_user s) (req_rest context))
      as [e | f]; [easy |].
    rewrite build_ssg_trace, build_ssg_outcome in Hin.
    destruct (wants_ssg o (is_client context)).
    - destruct (createServerSideHelpers_ext (optional_user s) f);
        simpl in Hin; intuition congruence.
    - simpl in Hin. intuition discriminate. }
  destruct Huser as (s & Hs & ->).
  split; [| split].
  - rewrite createServerSideProps_trace, Hs.
    apply in_or_app. right. now left.
  - exists s. split; [exact Hs | reflexivity].
  - intros args Hargs.
    destruct (resolver_invoked _ _ _ _ Hargs) as (_ & _ & Hs' & _).
    congruence.
Qed.

(** [startsWith]: a string starts with a prefix iff it is the prefix followed
    by something. *)
Lemma prefix_iff_append (p s : string) :
  String.prefix p s = true <-> exists rest, s = (p +:+ rest).
Proof.
  revert s. induction p as [| a p IH]; intros s.
  - split; [intros _; now exists s | intros _; now destruct s].
  - destruct s as [| b s]; simpl.
    + split; [discriminate | intros [rest Hr]; discriminate].
    + destruct (Ascii.ascii_dec a b) as [-> | Hab].
      * rewrite IH. split; intros [rest Hr]; exists rest.
        -- now rewrite Hr.
        -- now injection Hr.
      * split; [discriminate |]. intros [rest Hr]. injection Hr as Hb _.
        congruence.
Qed.

(** X19: a request counts as a soft navigation exactly when it has a url
    that is ["/_next/data"] followed by anything; a request without url is a
    full page load. *)
Theorem is_client_iff_data_prefix (context : GetServerSidePropsContext) :
  (is_client context = true
   <-> exists rest, req_url context = Some ("/_next/data" +:+ rest))
  /\ (req_url context = None -> is_client context = false).
Proof.
  unfold is_client. destruct (req_url context) as [u |]; simpl.
  - split; [| discriminate]. rewrite prefix_iff_append.
    split; intros [rest Hr]; exists rest; congruence.
  - split; [| reflexivity].
    split; [discriminate | intros [rest Hr]; discriminate].
Qed.

(** X20: when the invoked resolver returns plain props and no terminal
    outcome, the handler returns a props object that keeps every caller
    property with its value, except that [session] is filled in when the
    caller did not set it and that [trpcState] is the prefetch snapshot
    whenever a prefetch context was built, whatever the caller put there;
    nothing else is added. *)
Theorem caller_props_kept o resolver context args r (m : gmap string Value) :
  In (EvResolver args) (trace (createServerSideProps o resolver context)) ->
  resolver args = inr (Some r) ->
  redirect r = None ->
  notFound r = false ->
  props r = Some (PlainProps m) ->
  exists p,
    outcome (createServerSideProps o resolver context) = inr (OutProps p)
    /\ (forall k v, m !! k = Some v ->
          k <> "trpcState" \/ ssg args = None ->
          p !! k = Some (CallerValue v))
    /\ (forall g, ssg args = Some g ->
          p !! "trpcState" = Some (TrpcStateValue (dehydrate g)))
    /\ (m !! "session" = None ->
        p !! "session" = Some (SessionValue (session args)))
    /\ (forall k, m !! k = None -> k <> "session" ->
          k <> "trpcState" \/ ssg args = None ->
          p !! k = None).
Proof.
  intros Hin Hres Hrd Hnf Hprops.
  destruct (resolver_invoked _ _ _ _ Hin) as (_ & _ & _ & _ & _ & Hout).
  rewrite Hres in Hout. unfold interpret in Hout.
  rewrite Hrd, Hnf, Hprops in Hout.
  exists (final_props (session args) (Some (PlainProps m)) (ssg args)).
  destruct (final_props_lookup (session args) (Some (PlainProps m)) (ssg args))
    as (Htrpc & Hsess & Hrest).
  simpl in Htrpc, Hsess, Hrest.
  split; [exact Hout |]. split; [| split; [| split]].
  - intros k v Hk Hfree.
    destruct (decide (k = "session")) as [-> | Hks].
    { rewrite Hsess, lookup_fmap, Hk. reflexivity. }
    destruct (decide (k = "trpcState")) as [-> | Hkt].
    { destruct Hfree as [Hfree | Hnone]; [congruence |].
      rewrite Htrpc, Hnone, lookup_fmap, Hk. reflexivity. }
    rewrite (Hrest k Hks Hkt), lookup_fmap, Hk. reflexivity.
  - intros g Hg. now rewrite Htrpc, Hg.
  - intros Hnone. rewrite Hsess, lookup_fmap, Hnone. reflexivity.
  - intros k Hk Hks Hfree.
    destruct (decide (k = "trpcState")) as [-> | Hkt].
    { destruct Hfree as [Hfree | Hnone]; [congruence |].
      rewrite Htrpc, Hnone, lookup_fmap, Hk. reflexivity. }
    rewrite (Hrest k Hks Hkt), lookup_fmap, Hk. reflexivity.
Qed.

(** X21: a result object that carries no redirect, no not-found mark and no
    spreadable props (no [props] at all, or [props] that is a promise, which
    has no own enumerable property) is treated as a void result: the props
    object holds the session, the snapshot under [trpcState] exactly when a
    prefetch context was built, and nothing of what the promise may resolve
    to. *)
Theorem unspreadable_props_like_void o resolver context args r :
  In (EvResolver args) (trace (createServerSideProps o resolver context)) ->
  resolver args = inr (Some r) ->
  redirect r = None ->
  notFound r = false ->
  (props r = None \/ exists m, props r = Some (PromiseProps m)) ->
  outcome (createServerSideProps o resolver context)
    = inr (interpret (session args) (ssg args) None)
  /\ exists p,
       outcome (createServerSideProps o resolver context) = inr (OutProps p)
       /\ p !! "session" = Some (SessionValue (session args))
       /\ p !! "trpcState"
          = (fun g => TrpcStateValue (dehydrate g)) <$> ssg args
       /\ forall k, k <> "session" -> k <> "trpcState" -> p !! k = None.
Proof.
  intros Hin Hres Hrd Hnf Hprops.
  destruct (resolver_invoked _ _ _ _ Hin) as (_ & _ & _ & _ & _ & Hout).
  rewrite Hres in Hout. unfold interpret in Hout. rewrite Hrd, Hnf in Hout.
  assert (Hsame : final_props (session args) (props r) (ssg args)
                  = final_props (session args) None (ssg args)).
  { destruct Hprops as [-> | [m ->]]; reflexivity. }
  rewrite Hsame in Hout.
  split; [exact Hout |].
  exists (final_props (session args) None (ssg args)).
  destruct (final_props_lookup (session args) None (ssg args))
    as (Htrpc & Hsess & Hrest).
  simpl in Htrpc, Hsess, Hrest.
  split; [exact Hout |]. split; [| split].
  - rewrite Hsess. now rewrite lookup_empty.
  - rewrite Htrpc. destruct (ssg args); simpl; [reflexivity |].
    apply lookup_empty.
  - intros k Hk1 Hk2. rewrite (Hrest k Hk1 Hk2). apply lookup_empty.
Qed.

End BuilderMore.

Section BuilderMoreExamples.

Import ServerSideHelpers BuilderLog.

Lemma early_failure_stops_handler_witness :
  (let c := MoreSamples.auth_down in
   outcome (@createServerSideProps c Samples.ssg_once
              (MoreSamples.void_resolver_with _ _ _)
              (MoreSamples.page_load_with _ _ _)) = inl "auth down"
   /\ trace (@createServerSideProps c Samples.ssg_once
               (MoreSamples.void_resolver_with _ _ _)
               (MoreSamples.page_load_with _ _ _))
      = [@EvGetServerAuthSession c])
  /\ (let c := MoreSamples.flags_down in
      outcome (@createServerSideProps c Samples.ssg_once
                 (MoreSamples.void_resolver_with _ _ _)
                 (MoreSamples.page_load_with _ _ _)) = inl "flags down")
  /\ (let c := MoreSamples.helpers_down in
      outcome (@createServerSideProps c Samples.ssg_once
                 (MoreSamples.void_resolver_with _ _ _)
                 (MoreSamples.page_load_with _ _ _)) = inl "helpers down").
Proof.
  split; [| split].
  - exact (proj1 (@early_failure_stops_handler MoreSamples.auth_down
                    Samples.ssg_once (MoreSamples.void_resolver_with _ _ _)
                    (MoreSamples.page_load_with _ _ _))
             "auth down" eq_refl).
  - exact (proj1 (proj1 (proj2 (@early_failure_stops_handler
                    MoreSamples.flags_down
                    Samples.ssg_once (MoreSamples.void_resolver_with _ _ _)
                    (MoreSamples.page_load_with _ _ _)))
             (Some "alice") "flags down" eq_refl eq_refl)).
  - exact (proj1 (proj2 (proj2 (@early_failure_stops_handler
                    MoreSamples.helpers_down
                    Samples.ssg_once (MoreSamples.void_resolver_with _ _ _)
                    (MoreSamples.page_load_with _ _ _)))
             (Some "alice") tt "helpers down" eq_refl eq_refl eq_refl
             (or_intror eq_refl) eq_refl)).
Defined.

#[local] Existing Instance Samples.collaborators.

Lemma outcome_is_resolvers_witness :
  outcome (createServerSideProps Samples.ssg_once MoreSamples.failing_resolver
             Samples.page_load) = inl "resolver down"
  /\ exists args result,
       In (EvResolver args)
          (trace (createServerSideProps Samples.ssg_once
                    Samples.void_resolver Samples.page_load))
       /\ Samples.void_resolver args = inr result.
Proof.
  split.
  - exact (proj1 (outcome_is_resolvers Samples.ssg_once
                    MoreSamples.failing_resolver Samples.page_load)
             Samples.page_load_args "resolver down"
             (page_load_reaches_resolver _) eq_refl).
  - destruct (proj2 (outcome_is_resolvers Samples.ssg_once
                       Samples.void_resolver Samples.page_load)
                _ eq_refl)
      as (args & result & Hin & _ & _ & _ & Hres & _).
    exists args, result. split; [exact Hin | exact Hres].
Defined.

Lemma no_useSSG_no_prefetch_witness :
  useSSG MoreSamples.no_ssg <> Some true
  /\ helpers_built
       (trace (createServerSideProps MoreSamples.no_ssg Samples.foo_resolver
                 Samples.page_load)) = 0.
Proof.
  assert (Hne : useSSG MoreSamples.no_ssg <> Some true) by discriminate.
  split; [exact Hne |].
  exact (proj1 (no_useSSG_no_prefetch MoreSamples.no_ssg Samples.foo_resolver
                  Samples.page_load Hne)).
Defined.

Lemma full_load_builds_prefetch_witness :
  useSSG Samples.ssg_once = Some true
  /\ is_client Samples.page_load = false
  /\ helpers_built
       (trace (createServerSideProps Samples.ssg_once Samples.foo_resolver
                 Samples.page_load)) = 1.
Proof.
  split; [reflexivity |]. split; [reflexivity |].
  exact (proj1 (full_load_builds_prefetch Samples.ssg_once
                  Samples.foo_resolver Samples.page_load (Some "alice") tt
                  eq_refl eq_refl eq_refl eq_refl)).
Defined.

Lemma prefetch_for_flag_user_witness :
  In (EvGetFeatureFlagsLazy (Some "alice"))
     (trace (createServerSideProps Samples.ssg_once Samples.foo_resolver
               Samples.page_load)).
Proof.
  refine (proj1 (prefetch_for_flag_user Samples.ssg_once Samples.foo_resolver
                   Samples.page_load (Some "alice") _)).
  right. right. left. reflexivity.
Defined.

Lemma is_client_iff_data_prefix_witness :
  is_client Samples.soft_navigation = true
  /\ is_client {| req_url := None; req_session := None; req_rest := tt |}
     = false.
Proof.
  split.
  - apply (proj2 (proj1 (is_client_iff_data_prefix Samples.soft_navigation))).
    exists "/build/models/1.json". reflexivity.
  - exact (proj2 (is_client_iff_data_prefix
                    {| req_url := None; req_session := None;
                       req_rest := tt |}) eq_refl).
Defined.

Lemma caller_props_kept_witness :
  exists p,
    outcome (createServerSideProps Samples.ssg_once
               MoreSamples.trpcState_resolver Samples.page_load)
    = inr (OutProps p)
    /\ p !! "foo" = Some (CallerValue 1%Z)
    /\ p !! "trpcState" = Some (TrpcStateValue "snapshot")
    /\ p !! "session" = Some (SessionValue (Some "alice")).
Proof.
  destruct (caller_props_kept Samples.ssg_once MoreSamples.trpcState_resolver
              Samples.page_load Samples.page_load_args _
              {[ "foo" := 1%Z; "trpcState" := 2%Z ]}
              (page_load_reaches_resolver _) eq_refl eq_refl eq_refl eq_refl)
    as (p & Hout & Hkept & Htrpc & Hsess & _).
  exists p. split; [exact Hout |]. split; [| split].
  - apply Hkept; [reflexivity | left; discriminate].
  - exact (Htrpc 1 eq_refl).
  - exact (Hsess eq_refl).
Defined.

Lemma unspreadable_props_like_void_witness :
  outcome (createServerSideProps Samples.ssg_once MoreSamples.promise_resolver
             Samples.page_load)
  = outcome (createServerSideProps Samples.ssg_once Samples.void_resolver
               Samples.page_load).
Proof.
  exact (proj1 (unspreadable_props_like_void Samples.ssg_once
                  MoreSamples.promise_resolver Samples.page_load
                  Samples.page_load_args _
                  (page_load_reaches_resolver _) eq_refl eq_refl eq_refl
                  (or_intror (ex_intro _ {[ "foo" := 1%Z ]} eq_refl)))).
Defined.

End BuilderMoreExamples.

(** ** More on the article sitemap *)

Lemma string_append_assoc (a b c : string) :
  ((a +:+ b) +:+ c) = (a +:+ (b +:+ c)).
Proof.
  induction a as [| x a IH]; [reflexivity |].
  change (String x ((a +:+ b) +:+ c) = String x (a +:+ (b +:+ c))).
  now rewrite IH.
Qed.

Section SitemapMore.

Import SitemapArticles.

Context {Ctx DateT Failure Result : Type}
        (getArticles : GetArticlesInput -> Failure + ArticlesPage DateT)
        (getBaseUrl : unit -> string)
        (slugit : string -> string)
        (toISOString : DateT -> string)
        (now : DateT)
        (number_to_string : Z -> string)
        (getServerSideSitemapLegacy :
           Ctx -> list ISitemapField -> Failure + Result).

(** X22: when the articles query succeeds, the handler's result, success or
    failure, is the sitemap writer's for a list with one entry per article,
    in the order of the articles: each entry's location is the base url
    followed by [/articles/], the article's id, [/] and the slug of its
    title, and its last modification is the publication date, or the
    current time for an article without one. *)
Theorem getServerSideProps_fields context page :
  getArticles {| browsingMode := SFW; limit := 1000; period := AllTime;
                 sort := MostBookmarks; periodMode := published |}
    = inr page ->
  exists fields,
    getServerSideProps getArticles getBaseUrl slugit toISOString now
      number_to_string getServerSideSitemapLegacy context
    = getServerSideSitemapLegacy context fields
    /\ Forall2
         (fun article field =>
            loc field
            = (getBaseUrl tt +:+ "/articles/" +:+ number_to_string (id article)
               +:+ "/" +:+ slugit (title article))
            /\ String.prefix (getBaseUrl tt +:+ "/articles/") (loc field)
               = true
            /\ lastmod field
               = match publishedAt article with
                 | Some d => toISOString d
                 | None => toISOString now
                 end)
         (items page) fields.
Proof.
  intros Hq. rewrite getServerSideProps_query, Hq. simpl.
  eexists. split; [reflexivity |].
  induction (items page) as [| a l IH]; simpl; constructor; [| exact IH].
  split; [reflexivity |]. split.
  - apply prefix_iff_append.
    exists (number_to_string (id a) +:+ "/" +:+ slugit (title a)).
    unfold article_field; simpl.
    now rewrite !string_append_assoc.
  - unfold article_field; simpl. now destruct (publishedAt a).
Qed.

End SitemapMore.

Lemma getServerSideProps_fields_witness :
  exists fields,
    SitemapArticles.getServerSideProps
      (fun _ => inr {| SitemapArticles.items :=
                         [ {| SitemapArticles.id := 5;
                              SitemapArticles.title := "hello";
                              SitemapArticles.publishedAt := None |} ] |})
      (fun _ => "https://example.org") (fun t => t) (fun d : string => d)
      "2024-01-01T00:00:00.000Z" (fun _ => "5")
      (fun (_ : unit) fields => @inr string _ fields) tt
    = inr fields
    /\ Forall2
         (fun article field =>
            SitemapArticles.loc field
            = ("https://example.org" +:+ "/articles/" +:+ "5" +:+ "/"
               +:+ SitemapArticles.title article)
            /\ String.prefix ("https://example.org" +:+ "/articles/")
                 (SitemapArticles.loc field) = true
            /\ SitemapArticles.lastmod field
               = match SitemapArticles.publishedAt article with
                 | Some d => d
                 | None => "2024-01-01T00:00:00.000Z"
                 end)
         [ {| SitemapArticles.id := 5; SitemapArticles.title := "hello";
              SitemapArticles.publishedAt := None |} ]
         fields.
Proof.
  exact (getServerSideProps_fields
           (Failure := string)
           (fun _ => inr {| SitemapArticles.items :=
                              [ {| SitemapArticles.id := 5;
                                   SitemapArticles.title := "hello";
                                   SitemapArticles.publishedAt := None |} ] |})
           (fun _ => "https://example.org") (fun t => t)
           (fun d : string => d)
           "2024-01-01T00:00:00.000Z" (fun _ => "5")
           (fun (_ : unit) fields => @inr string _ fields) tt _ eq_refl).
Defined.
